(** * Blog API: the service layer of the modular variant, and the password
      hash of the monolith, as a shallow embedding.

    The Python sources embedded here are

    - [app/modules/users/services/user_service.py]     ([UserService])
    - [app/modules/posts/services/post_service.py]     ([PostService])
    - [app/modules/comments/services/comment_service.py] ([CommentService])
    - [app/api/auth.py], [app/api/posts.py], [app/api/comments.py]
    - [app/core/database.py]                           (the schema)
    - [src/app/main.py]                                ([hash_password], [register])

    Conventions of the embedding.

    - A Python [str] is a Rocq [string]; a character is the code point
      U+0000..U+00FF it denotes, so [len] is [String.length].
    - A table is the list of its rows in insertion order.  The relational
      constraints of the schema (PRIMARY KEY, UNIQUE, REFERENCES) are checked
      by the INSERT statements and surface as [DatabaseError]; the text domains of
      the columns (VARCHAR(n), the syntax of a UUID, the client encoding) are
      not modelled: an identifier is a value of the UUID column type.
    - The column defaults [gen_random_uuid()] and [NOW()] are inputs of the
      statement that uses them ([generated]).
    - [hashlib] and [str.encode] are written out (FIPS 180-4, RFC 1321,
      UTF-8) so that every definition evaluates. *)

From Stdlib Require Import List Arith NArith ZArith Lia Bool.
From Stdlib Require Import Ascii String.
From Stdlib Require Import Permutation Sorted.
From Stdlib Require DecimalString DecimalZ DecimalPos.
Import ListNotations.

Local Open Scope string_scope.

(** ** Python strings *)

Module PyStr.

(** Code point of a character. *)
Definition ord (c : ascii) : N := N_of_ascii c.

(** [str.isspace] on one character, for the code points below U+0100:
    TAB..CR, FS..US, SPACE, NEL and NBSP. *)
Definition isspace (c : ascii) : bool :=
  let n := ord c in
  ((9 <=? n) && (n <=? 13) || (28 <=? n) && (n <=? 32)
   || (n =? 133) || (n =? 160))%N.

(** [s.lstrip()] *)
Fixpoint lstrip (s : string) : string :=
  match s with
  | EmptyString => EmptyString
  | String c s' => if isspace c then lstrip s' else s
  end.

(** [s.rstrip()] *)
Fixpoint rstrip (s : string) : string :=
  match s with
  | EmptyString => EmptyString
  | String c s' =>
      match rstrip s' with
      | EmptyString => if isspace c then EmptyString else String c EmptyString
      | r => String c r
      end
  end.

(** [s.strip()] *)
Definition strip (s : string) : string := rstrip (lstrip s).

(** [len(s)] *)
Definition len (s : string) : nat := String.length s.

(** Truth value of a string: [not s] holds of the empty string only. *)
Definition not_ (s : string) : bool :=
  match s with EmptyString => true | _ => false end.

(** Every character of [s] is whitespace. *)
Fixpoint all_space (s : string) : bool :=
  match s with
  | EmptyString => true
  | String c s' => isspace c && all_space s'
  end.

(** [n] copies of [c]: the Python expression [c * n]. *)
Fixpoint repeat (c : ascii) (n : nat) : string :=
  match n with
  | O => EmptyString
  | S n' => String c (repeat c n')
  end.

(** The last character of a string, if any. *)
Fixpoint last_char (s : string) : option ascii :=
  match s with
  | EmptyString => None
  | String c EmptyString => Some c
  | String _ s' => last_char s'
  end.

End PyStr.

(** ** [hashlib]: SHA-256 and MD5 over the UTF-8 encoding of a string *)

Module Hashlib.

Local Open Scope N_scope.

(** [s.encode()]: UTF-8; a code point below U+0080 is one byte, one below
    U+0100 is two. *)
Definition utf8_char (c : ascii) : list N :=
  let n := N_of_ascii c in
  if n <? 128 then [n]
  else [N.lor 192 (N.shiftr n 6); N.lor 128 (N.land n 63)].

Fixpoint encode (s : string) : list N :=
  match s with
  | EmptyString => []
  | String c s' => utf8_char c ++ encode s'
  end.

(** 32-bit words: a word is an [N] below [2^32]. *)
Definition mask32 : N := 4294967295.
Definition w32 (x : N) : N := N.land x mask32.
Definition add32 (x y : N) : N := w32 (x + y).
Definition not32 (x : N) : N := N.lxor (w32 x) mask32.
Definition rotr (n x : N) : N :=
  N.lor (N.shiftr x n) (w32 (N.shiftl x (32 - n))).
Definition rotl (n x : N) : N :=
  N.lor (w32 (N.shiftl x n)) (N.shiftr x (32 - n)).

Definition byte_of (k x : N) : N := N.land (N.shiftr x (8 * k)) 255.

(** The four bytes of a word and the eight bytes of a length, in both
    byte orders. *)
Definition be32 (x : N) : list N :=
  [byte_of 3 x; byte_of 2 x; byte_of 1 x; byte_of 0 x].
Definition le32 (x : N) : list N :=
  [byte_of 0 x; byte_of 1 x; byte_of 2 x; byte_of 3 x].
Definition be64 (x : N) : list N :=
  be32 (N.shiftr x 32) ++ be32 x.
Definition le64 (x : N) : list N :=
  le32 x ++ le32 (N.shiftr x 32).

Definition word_be (b0 b1 b2 b3 : N) : N :=
  N.lor (N.shiftl b0 24) (N.lor (N.shiftl b1 16) (N.lor (N.shiftl b2 8) b3)).
Definition word_le (b0 b1 b2 b3 : N) : N := word_be b3 b2 b1 b0.

Fixpoint words (mk : N -> N -> N -> N -> N) (bs : list N) : list N :=
  match bs with
  | b0 :: b1 :: b2 :: b3 :: bs' => mk b0 b1 b2 b3 :: words mk bs'
  | _ => []
  end.

(** Message padding: a 0x80 byte, zeros up to 56 modulo 64, and the bit
    length on eight bytes. *)
Definition pad (len64 : N -> list N) (msg : list N) : list N :=
  let n := N.of_nat (List.length msg) in
  let k := (119 - n mod 64) mod 64 in
  msg ++ 128 :: List.repeat 0 (N.to_nat k) ++ len64 (8 * n).

(** The 64-byte blocks of a padded message. *)
Fixpoint blocks (fuel : nat) (bs : list N) : list (list N) :=
  match fuel, bs with
  | O, _ | _, [] => []
  | S fuel', _ => firstn 64 bs :: blocks fuel' (skipn 64 bs)
  end.

Module SHA256.

Definition K : list N :=
  [ 1116352408; 1899447441; 3049323471; 3921009573; 961987163; 1508970993;
    2453635748; 2870763221; 3624381080; 310598401; 607225278; 1426881987;
    1925078388; 2162078206; 2614888103; 3248222580; 3835390401; 4022224774;
    264347078; 604807628; 770255983; 1249150122; 1555081692; 1996064986;
    2554220882; 2821834349; 2952996808; 3210313671; 3336571891; 3584528711;
    113926993; 338241895; 666307205; 773529912; 1294757372; 1396182291;
    1695183700; 1986661051; 2177026350; 2456956037; 2730485921; 2820302411;
    3259730800; 3345764771; 3516065817; 3600352804; 4094571909; 275423344;
    430227734; 506948616; 659060556; 883997877; 958139571; 1322822218;
    1537002063; 1747873779; 1955562222; 2024104815; 2227730452; 2361852424;
    2428436474; 2756734187; 3204031479; 3329325298 ].

Record state := St { a : N; b : N; c : N; d : N; e : N; f : N; g : N; h : N }.

Definition H0 : state :=
  St 1779033703 3144134277 1013904242 2773480762
     1359893119 2600822924 528734635 1541459225.

Definition sigma0 (x : N) := N.lxor (rotr 7 x) (N.lxor (rotr 18 x) (N.shiftr x 3)).
Definition sigma1 (x : N) := N.lxor (rotr 17 x) (N.lxor (rotr 19 x) (N.shiftr x 10)).
Definition Sigma0 (x : N) := N.lxor (rotr 2 x) (N.lxor (rotr 13 x) (rotr 22 x)).
Definition Sigma1 (x : N) := N.lxor (rotr 6 x) (N.lxor (rotr 11 x) (rotr 25 x)).
Definition Ch (x y z : N) := N.lxor (N.land x y) (N.land (not32 x) z).
Definition Maj (x y z : N) :=
  N.lxor (N.land x y) (N.lxor (N.land x z) (N.land y z)).

(** The message schedule, newest word first. *)
Fixpoint schedule (n : nat) (rw : list N) : list N :=
  match n with
  | O => rw
  | S n' =>
      let w := add32 (add32 (sigma1 (nth 1 rw 0)) (nth 6 rw 0))
                     (add32 (sigma0 (nth 14 rw 0)) (nth 15 rw 0)) in
      schedule n' (w :: rw)
  end.

Definition round (s : state) (kw : N * N) : state :=
  let t1 := add32 (add32 (add32 (h s) (Sigma1 (e s))) (Ch (e s) (f s) (g s)))
                  (add32 (fst kw) (snd kw)) in
  let t2 := add32 (Sigma0 (a s)) (Maj (a s) (b s) (c s)) in
  St (add32 t1 t2) (a s) (b s) (c s) (add32 (d s) t1) (e s) (f s) (g s).

Definition compress (s : state) (block : list N) : state :=
  let W := rev (schedule 48 (rev (words word_be block))) in
  let s' := fold_left round (combine K W) s in
  St (add32 (a s) (a s')) (add32 (b s) (b s')) (add32 (c s) (c s'))
     (add32 (d s) (d s')) (add32 (e s) (e s')) (add32 (f s) (f s'))
     (add32 (g s) (g s')) (add32 (h s) (h s')).

Definition digest (msg : list N) : list N :=
  let p := pad be64 msg in
  let s := fold_left compress (blocks (List.length p) p) H0 in
  be32 (a s) ++ be32 (b s) ++ be32 (c s) ++ be32 (d s)
  ++ be32 (e s) ++ be32 (f s) ++ be32 (g s) ++ be32 (h s).

End SHA256.

Module MD5.

Definition K : list N :=
  [ 3614090360; 3905402710; 606105819; 3250441966; 4118548399; 1200080426;
    2821735955; 4249261313; 1770035416; 2336552879; 4294925233; 2304563134;
    1804603682; 4254626195; 2792965006; 1236535329; 4129170786; 3225465664;
    643717713; 3921069994; 3593408605; 38016083; 3634488961; 3889429448;
    568446438; 3275163606; 4107603335; 1163531501; 2850285829; 4243563512;
    1735328473; 2368359562; 4294588738; 2272392833; 1839030562; 4259657740;
    2763975236; 1272893353; 4139469664; 3200236656; 681279174; 3936430074;
    3572445317; 76029189; 3654602809; 3873151461; 530742520; 3299628645;
    4096336452; 1126891415; 2878612391; 4237533241; 1700485571; 2399980690;
    4293915773; 2240044497; 1873313359; 4264355552; 2734768916; 1309151649;
    4149444226; 3174756917; 718787259; 3951481745 ].

Definition shifts : list N :=
  [ 7; 12; 17; 22; 7; 12; 17; 22; 7; 12; 17; 22; 7; 12; 17; 22;
    5; 9; 14; 20; 5; 9; 14; 20; 5; 9; 14; 20; 5; 9; 14; 20;
    4; 11; 16; 23; 4; 11; 16; 23; 4; 11; 16; 23; 4; 11; 16; 23;
    6; 10; 15; 21; 6; 10; 15; 21; 6; 10; 15; 21; 6; 10; 15; 21 ].

Record state := St { a : N; b : N; c : N; d : N }.

Definition H0 : state := St 1732584193 4023233417 2562383102 271733878.

Definition step (M : list N) (s : state) (i : nat) : state :=
  let q := (i / 16)%nat in
  let F :=
    match q with
    | 0%nat => N.lor (N.land (b s) (c s)) (N.land (not32 (b s)) (d s))
    | 1%nat => N.lor (N.land (d s) (b s)) (N.land (not32 (d s)) (c s))
    | 2%nat => N.lxor (b s) (N.lxor (c s) (d s))
    | _ => N.lxor (c s) (N.lor (b s) (not32 (d s)))
    end in
  let j :=
    match q with
    | 0%nat => i
    | 1%nat => ((5 * i + 1) mod 16)%nat
    | 2%nat => ((3 * i + 5) mod 16)%nat
    | _ => ((7 * i) mod 16)%nat
    end in
  let t := add32 (add32 F (a s)) (add32 (nth i K 0) (nth j M 0)) in
  St (d s) (add32 (b s) (rotl (nth i shifts 0) t)) (b s) (c s).

Definition compress (s : state) (block : list N) : state :=
  let s' := fold_left (step (words word_le block)) (seq 0 64) s in
  St (add32 (a s) (a s')) (add32 (b s) (b s'))
     (add32 (c s) (c s')) (add32 (d s) (d s')).

Definition digest (msg : list N) : list N :=
  let p := pad le64 msg in
  let s := fold_left compress (blocks (List.length p) p) H0 in
  le32 (a s) ++ le32 (b s) ++ le32 (c s) ++ le32 (d s).

End MD5.

(** [hexdigest()]: two lowercase hexadecimal digits per byte. *)
Definition hexdigit (n : N) : ascii :=
  ascii_of_N (if n <? 10 then 48 + n else 87 + n).

Fixpoint hex (bs : list N) : string :=
  match bs with
  | [] => EmptyString
  | x :: bs' =>
      String (hexdigit (N.shiftr x 4 mod 16))
             (String (hexdigit (x mod 16)) (hex bs'))
  end.

(** [hashlib.sha256(data).hexdigest()] and [hashlib.md5(data).hexdigest()] *)
Definition sha256_hexdigest (data : list N) : string := hex (SHA256.digest data).
Definition md5_hexdigest (data : list N) : string := hex (MD5.digest data).

(** A lowercase hexadecimal digit. *)
Definition is_hexdigit (ch : ascii) : bool :=
  let n := N_of_ascii ch in
  (48 <=? n) && (n <=? 57) || (97 <=? n) && (n <=? 102).

Fixpoint all_hex (s : string) : bool :=
  match s with
  | EmptyString => true
  | String ch s' => is_hexdigit ch && all_hex s'
  end.

End Hashlib.


(** ** The schema of [init_db] *)

(** A value of a UUID column (its 128 bits) and of a TIMESTAMP WITH TIME
    ZONE column (microseconds). *)
Definition UUID : Type := N.
Definition timestamp : Type := Z.
Bind Scope N_scope with UUID.
Bind Scope Z_scope with timestamp.

(** [str(row["id"])]: the 8-4-4-4-12 text of a UUID. *)
Definition str_uuid (u : UUID) : string :=
  let x := Hashlib.hex (Hashlib.be64 (N.shiftr u 64) ++ Hashlib.be64 u) in
  substring 0 8 x ++ "-" ++ substring 8 4 x ++ "-" ++ substring 12 4 x
  ++ "-" ++ substring 16 4 x ++ "-" ++ substring 20 12 x.

(** Table [users]. *)
Module users.
Record row := Row
  { id : UUID; username : string; password_hash : string;
    created_at : timestamp }.
End users.

(** Table [posts]; [updated_at] is nullable. *)
Module posts.
Record row := Row
  { id : UUID; title : string; content : string; author_id : UUID;
    created_at : timestamp; updated_at : option timestamp }.
End posts.

(** Table [comments]. *)
Module comments.
Record row := Row
  { id : UUID; post_id : UUID; content : string; author_id : UUID;
    created_at : timestamp }.
End comments.

(** The dict made of [RETURNING id, username, created_at] and of
    [SELECT id, username, created_at]. *)
Module user.
Record dict := Dict
  { id : UUID; username : string; created_at : timestamp }.
End user.

(** The dict a [SELECT id, username, created_at] makes of a row. *)
Definition user_dict (r : users.row) : user.dict :=
  user.Dict (users.id r) (users.username r) (users.created_at r).

(** The database behind a connection. *)
Record DB := mkDB
  { users_table : list users.row;
    posts_table : list posts.row;
    comments_table : list comments.row }.

(** What the column defaults produce for one INSERT. *)
Record generated := Generated
  { gen_random_uuid : UUID; NOW : timestamp }.

(** ** Exceptions and the connection monad *)

(** Errors of the database itself ([psycopg2.IntegrityError]), which are
    not [ValueError]s. *)
Inductive db_error := UniqueViolation | ForeignKeyViolation.

Inductive exn :=
| ValueError (msg : string)
| DatabaseError (e : db_error).

Inductive result (A : Type) :=
| Return (a : A)
| Raise (e : exn).
Arguments Return {A} a.
Arguments Raise {A} e.

(** A method of a service: it runs on the connection's database and leaves
    a database behind, whether it returns or raises.  ([get_db_connection]
    then commits or rolls back; the methods below write nothing before they
    raise, see [create_user_raise_unchanged] and its like.) *)
Definition M (A : Type) : Type := DB -> result A * DB.

Definition ret {A} (a : A) : M A := fun db => (Return a, db).
Definition raise {A} (e : exn) : M A := fun db => (Raise e, db).
Definition bind {A B} (m : M A) (k : A -> M B) : M B :=
  fun db =>
    match m db with
    | (Return a, db') => k a db'
    | (Raise e, db') => (Raise e, db')
    end.

Notation "x <- m ;; k" := (bind m (fun x => k))
  (at level 61, m at next level, right associativity).

(** ** The SQL statements the services execute *)

Module Sql.

(** [SELECT id FROM users WHERE username = %s], then [fetchone()]. *)
Definition select_user_id_by_username (username : string) : M (option UUID) :=
  fun db =>
    (Return (option_map users.id
               (find (fun r => String.eqb (users.username r) username)
                     (users_table db))), db).

(** [INSERT INTO users (username, password_hash) VALUES (%s, %s)
    RETURNING id, username, created_at], then [fetchone()].
    [id] is PRIMARY KEY and [username] is UNIQUE. *)
Definition insert_user (g : generated) (username password_hash : string)
  : M user.dict :=
  fun db =>
    if existsb (fun r => N.eqb (users.id r) (gen_random_uuid g)) (users_table db)
       || existsb (fun r => String.eqb (users.username r) username) (users_table db)
    then (Raise (DatabaseError UniqueViolation), db)
    else
      let r := users.Row (gen_random_uuid g) username password_hash (NOW g) in
      (Return (user_dict r),
       mkDB (users_table db ++ [r]) (posts_table db) (comments_table db)).

(** [SELECT id, username, created_at FROM users
    WHERE username = %s AND password_hash = %s], then [fetchone()]. *)
Definition select_user_by_credentials (username password_hash : string)
  : M (option user.dict) :=
  fun db =>
    (Return (option_map user_dict
               (find (fun r => String.eqb (users.username r) username
                               && String.eqb (users.password_hash r) password_hash)
                     (users_table db))), db).

(** [SELECT id, username, created_at FROM users WHERE id = %s]. *)
Definition select_user_by_id (user_id : UUID) : M (option user.dict) :=
  fun db =>
    (Return (option_map user_dict
               (find (fun r => N.eqb (users.id r) user_id) (users_table db))), db).

(** [INSERT INTO posts (title, content, author_id) VALUES (%s, %s, %s)
    RETURNING id, title, content, author_id, created_at, updated_at].
    [id] is PRIMARY KEY and [author_id] REFERENCES [users(id)]. *)
Definition insert_post (g : generated) (title content : string) (author_id : UUID)
  : M posts.row :=
  fun db =>
    if existsb (fun r => N.eqb (posts.id r) (gen_random_uuid g)) (posts_table db)
    then (Raise (DatabaseError UniqueViolation), db)
    else if negb (existsb (fun r => N.eqb (users.id r) author_id) (users_table db))
    then (Raise (DatabaseError ForeignKeyViolation), db)
    else
      let r := posts.Row (gen_random_uuid g) title content author_id (NOW g) None in
      (Return r, mkDB (users_table db) (posts_table db ++ [r]) (comments_table db)).

(** [SELECT id, title, content, author_id, created_at, updated_at
    FROM posts WHERE id = %s], then [fetchone()]. *)
Definition select_post_by_id (post_id : UUID) : M (option posts.row) :=
  fun db =>
    (Return (find (fun r => N.eqb (posts.id r) post_id) (posts_table db)), db).

(** [SELECT id FROM posts WHERE id = %s], then [fetchone()]. *)
Definition select_post_id (post_id : UUID) : M (option UUID) :=
  fun db =>
    (Return (option_map posts.id
               (find (fun r => N.eqb (posts.id r) post_id) (posts_table db))), db).

(** [INSERT INTO comments (post_id, content, author_id) VALUES (%s, %s, %s)
    RETURNING id, post_id, content, author_id, created_at].
    [id] is PRIMARY KEY, [post_id] REFERENCES [posts(id)] and [author_id]
    REFERENCES [users(id)]. *)
Definition insert_comment (g : generated) (post_id : UUID) (content : string)
    (author_id : UUID) : M comments.row :=
  fun db =>
    if existsb (fun r => N.eqb (comments.id r) (gen_random_uuid g)) (comments_table db)
    then (Raise (DatabaseError UniqueViolation), db)
    else if negb (existsb (fun r => N.eqb (posts.id r) post_id) (posts_table db))
              || negb (existsb (fun r => N.eqb (users.id r) author_id) (users_table db))
    then (Raise (DatabaseError ForeignKeyViolation), db)
    else
      let r := comments.Row (gen_random_uuid g) post_id content author_id (NOW g) in
      (Return r, mkDB (users_table db) (posts_table db) (comments_table db ++ [r])).

Section OrderBy.

(** The sort the database runs for [ORDER BY created_at ASC]. *)
Variable order_by_created_at : list comments.row -> list comments.row.

(** [SELECT id, post_id, content, author_id, created_at FROM comments
    WHERE post_id = %s ORDER BY created_at ASC], then [fetchall()]. *)
Definition select_comments_by_post (post_id : UUID) : M (list comments.row) :=
  fun db =>
    (Return (order_by_created_at
               (filter (fun r => N.eqb (comments.post_id r) post_id)
                       (comments_table db))), db).

End OrderBy.

End Sql.

(** What SQL promises of [ORDER BY created_at ASC]: the rows come back,
    each once, with non-decreasing [created_at].  Nothing is promised about
    rows whose [created_at] are equal. *)
Definition created_at_le (x y : comments.row) : Prop :=
  (comments.created_at x <= comments.created_at y)%Z.

Definition order_by_contract (sort : list comments.row -> list comments.row) : Prop :=
  forall rows, Permutation rows (sort rows) /\ StronglySorted created_at_le (sort rows).

(** Two sorts a database may run. *)
Module Engine.

(** Insertion after the rows that are not later: equal rows keep the
    order of the table. *)
Fixpoint insert_after (x : comments.row) (l : list comments.row) :=
  match l with
  | [] => [x]
  | y :: l' =>
      if (comments.created_at y <=? comments.created_at x)%Z
      then y :: insert_after x l' else x :: l
  end.

(** Insertion before the rows that are not earlier. *)
Fixpoint insert_before (x : comments.row) (l : list comments.row) :=
  match l with
  | [] => [x]
  | y :: l' =>
      if (comments.created_at x <=? comments.created_at y)%Z
      then x :: l else y :: insert_before x l'
  end.

(** Rows taken in table order, each inserted after its equals. *)
Definition sort_scan (rows : list comments.row) : list comments.row :=
  fold_left (fun acc x => insert_after x acc) rows [].

(** Rows taken in table order, each inserted before its equals. *)
Definition sort_scan_front (rows : list comments.row) : list comments.row :=
  fold_left (fun acc x => insert_before x acc) rows [].

End Engine.

(** ** [UserService] *)

Module UserService.

Definition _hash_password (password : string) : string :=
  Hashlib.sha256_hexdigest (Hashlib.encode password).

Definition create_user (g : generated) (username password : string) : M user.dict :=
  existing_user <- Sql.select_user_id_by_username username ;;
  match existing_user with
  | Some _ =>
      raise (ValueError ("Username '" ++ username ++ "' already exists"))
  | None =>
      let password_hash := _hash_password password in
      Sql.insert_user g username password_hash
  end.

Definition authenticate_user (username password : string) : M (option user.dict) :=
  let password_hash := _hash_password password in
  user <- Sql.select_user_by_credentials username password_hash ;;
  match user with
  | Some u => ret (Some u)
  | None => ret None
  end.

Definition get_user_by_id (user_id : UUID) : M (option user.dict) :=
  Sql.select_user_by_id user_id.

End UserService.

(* The digests are computed by [vm_compute] only. *)
Arguments UserService._hash_password password : simpl never.

(** ** [PostService] *)

Module PostService.

Definition create_post (g : generated) (title content : string) (author_id : UUID)
  : M posts.row :=
  if PyStr.not_ title || (PyStr.len (PyStr.strip title) =? 0)%nat
  then raise (ValueError "Title cannot be empty")
  else if (200 <? PyStr.len title)%nat
  then raise (ValueError "Title cannot exceed 200 characters")
  else if PyStr.not_ content || (PyStr.len (PyStr.strip content) =? 0)%nat
  then raise (ValueError "Content cannot be empty")
  else Sql.insert_post g (PyStr.strip title) (PyStr.strip content) author_id.

Definition get_post_by_id (post_id : UUID) : M (option posts.row) :=
  Sql.select_post_by_id post_id.

End PostService.

(** ** [CommentService] *)

Module CommentService.

Definition create_comment (g : generated) (post_id : UUID) (content : string)
    (author_id : UUID) : M comments.row :=
  if PyStr.not_ content || (PyStr.len (PyStr.strip content) =? 0)%nat
  then raise (ValueError "Content cannot be empty")
  else
    post <- Sql.select_post_id post_id ;;
    match post with
    | None =>
        raise (ValueError ("Post with ID " ++ str_uuid post_id ++ " not found"))
    | Some _ =>
        Sql.insert_comment g post_id (PyStr.strip content) author_id
    end.

Definition list_comments_by_post
    (order_by_created_at : list comments.row -> list comments.row)
    (post_id : UUID) : M (list comments.row) :=
  Sql.select_comments_by_post order_by_created_at post_id.

End CommentService.

(** ** The HTTP handlers of [app/api] *)

Module Api.

(** What a handler produces: a response with its status code, or an
    [HTTPException]. *)
Inductive response (A : Type) :=
| Response (status_code : nat) (body : A)
| HTTPException (status_code : nat) (detail : string).
Arguments Response {A} status_code body.
Arguments HTTPException {A} status_code detail.

Module RegisterRequest.
Record t := Make { username : string; password : string }.
End RegisterRequest.

Module RegisterResponse.
Record t := Make { userId : string; username : string }.
End RegisterResponse.

Module LoginRequest.
Record t := Make { username : string; password : string }.
End LoginRequest.

Module LoginResponse.
Record t := Make { userId : string; username : string }.
End LoginResponse.

Module CreatePostRequest.
Record t := Make { title : string; content : string; authorId : UUID }.
End CreatePostRequest.

Module PostResponse.
Record t := Make
  { postId : string; title : string; content : string; authorId : string;
    createdAt : string; updatedAt : option string }.
End PostResponse.

Module CreateCommentRequest.
Record t := Make { content : string; authorId : UUID }.
End CreateCommentRequest.

Module CommentResponse.
Record t := Make
  { commentId : string; postId : string; content : string;
    authorId : string; createdAt : string }.
End CommentResponse.

Definition internal_server_error {A} : response A :=
  HTTPException 500 "Internal server error".

(** [POST /api/auth/register] *)
Definition register (g : generated) (request : RegisterRequest.t)
  : DB -> response RegisterResponse.t * DB :=
  fun db =>
    match UserService.create_user g (RegisterRequest.username request)
            (RegisterRequest.password request) db with
    | (Return u, db') =>
        (Response 201 (RegisterResponse.Make (str_uuid (user.id u)) (user.username u)), db')
    | (Raise (ValueError e), db') => (HTTPException 400 e, db')
    | (Raise _, db') => (internal_server_error, db')
    end.

(** [POST /api/auth/login] *)
Definition login (request : LoginRequest.t)
  : DB -> response LoginResponse.t * DB :=
  fun db =>
    match UserService.authenticate_user (LoginRequest.username request)
            (LoginRequest.password request) db with
    | (Return None, db') => (HTTPException 401 "Invalid credentials", db')
    | (Return (Some u), db') =>
        (Response 200 (LoginResponse.Make (str_uuid (user.id u)) (user.username u)), db')
    | (Raise _, db') => (internal_server_error, db')
    end.

Section Timestamps.

(** [datetime.isoformat] *)
Variable isoformat : timestamp -> string.

Definition post_response (post : posts.row) : PostResponse.t :=
  PostResponse.Make (str_uuid (posts.id post)) (posts.title post)
    (posts.content post) (str_uuid (posts.author_id post))
    (isoformat (posts.created_at post))
    (option_map isoformat (posts.updated_at post)).

Definition comment_response (comment : comments.row) : CommentResponse.t :=
  CommentResponse.Make (str_uuid (comments.id comment))
    (str_uuid (comments.post_id comment)) (comments.content comment)
    (str_uuid (comments.author_id comment))
    (isoformat (comments.created_at comment)).

(** [POST /api/posts] *)
Definition create_post (g : generated) (request : CreatePostRequest.t)
  : DB -> response PostResponse.t * DB :=
  fun db =>
    match PostService.create_post g (CreatePostRequest.title request)
            (CreatePostRequest.content request)
            (CreatePostRequest.authorId request) db with
    | (Return post, db') => (Response 201 (post_response post), db')
    | (Raise (ValueError e), db') => (HTTPException 400 e, db')
    | (Raise _, db') => (internal_server_error, db')
    end.

(** [GET /api/posts/{post_id}] *)
Definition get_post (post_id : UUID) : DB -> response PostResponse.t * DB :=
  fun db =>
    match PostService.get_post_by_id post_id db with
    | (Return None, db') => (HTTPException 404 "Post not found", db')
    | (Return (Some post), db') => (Response 200 (post_response post), db')
    | (Raise _, db') => (internal_server_error, db')
    end.

(** [POST /api/posts/{post_id}/comments] *)
Definition create_comment (g : generated) (post_id : UUID)
    (request : CreateCommentRequest.t)
  : DB -> response CommentResponse.t * DB :=
  fun db =>
    match CommentService.create_comment g post_id
            (CreateCommentRequest.content request)
            (CreateCommentRequest.authorId request) db with
    | (Return comment, db') => (Response 201 (comment_response comment), db')
    | (Raise (ValueError e), db') => (HTTPException 400 e, db')
    | (Raise _, db') => (internal_server_error, db')
    end.

(** [GET /api/posts/{post_id}/comments] *)
Definition list_comments
    (order_by_created_at : list comments.row -> list comments.row)
    (post_id : UUID) : DB -> response (list CommentResponse.t) * DB :=
  fun db =>
    match CommentService.list_comments_by_post order_by_created_at post_id db with
    | (Return cs, db') => (Response 200 (map comment_response cs), db')
    | (Raise _, db') => (internal_server_error, db')
    end.

End Timestamps.

End Api.

(** ** The monolith, [src/app/main.py] *)

Module Monolith.


Definition hash_password (password : string) : string :=
  Hashlib.md5_hexdigest (Hashlib.encode password).




(** The text [get_users] hands to [db.execute]. *)
Definition get_users_statement : string := "SELECT id, username, email FROM users".

End Monolith.

Arguments Monolith.hash_password password : simpl never.

(** ** Vocabulary of the statements *)


(** The string is empty once trimmed. *)
Definition blank (s : string) : Prop := PyStr.strip s = EmptyString.


(** The rows a method can find. *)
Definition user_named (db : DB) (name : string) : Prop :=
  exists r, In r (users_table db) /\ users.username r = name.

Definition post_exists (db : DB) (i : UUID) : Prop :=
  exists r, In r (posts_table db) /\ posts.id r = i.

Definition user_exists (db : DB) (i : UUID) : Prop :=
  exists r, In r (users_table db) /\ users.id r = i.

(** A row of [users] that matches the credentials. *)
Definition credentials_match (db : DB) (name hash : string) : Prop :=
  exists r, In r (users_table db)
            /\ users.username r = name /\ users.password_hash r = hash.

(** The rows of [comments] that reference the post, in table order. *)
Definition comments_of (db : DB) (post_id : UUID) : list comments.row :=
  filter (fun r => N.eqb (comments.post_id r) post_id) (comments_table db).

(** Every comment references a post of the table (the REFERENCES
    constraint, as a property of a database). *)
Definition comments_reference_posts (db : DB) : Prop :=
  forall c, In c (comments_table db) -> post_exists db (comments.post_id c).

(** The identifier is not yet a key of the table. *)
Definition fresh_user_id (db : DB) (i : UUID) : Prop :=
  forall r, In r (users_table db) -> users.id r <> i.

Definition fresh_post_id (db : DB) (i : UUID) : Prop :=
  forall r, In r (posts_table db) -> posts.id r <> i.

Definition fresh_comment_id (db : DB) (i : UUID) : Prop :=
  forall r, In r (comments_table db) -> comments.id r <> i.

(** ** A small database to run the definitions on *)

Module Sample.

Definition empty : DB := mkDB [] [] [].

Definition g1 : generated := Generated 1 1000.
Definition g2 : generated := Generated 2 2000.
Definition g3 : generated := Generated 3 3000.
Definition g4 : generated := Generated 4 3000.

(** After [create_user("alice", "wonderland")]. *)
Definition with_alice : DB :=
  snd (UserService.create_user g1 "alice" "wonderland" empty).

(** After alice's post "Popular Post". *)
Definition with_post : DB :=
  snd (PostService.create_post g2 "Popular Post" "This got many comments" 1
         with_alice).

(** After two comments on that post within the same microsecond. *)
Definition with_comments : DB :=
  snd (CommentService.create_comment g4 2 "Second comment" 1
         (snd (CommentService.create_comment g3 2 "First comment" 1 with_post))).

Definition second_comment : comments.row :=
  comments.Row 4 2 "Second comment" 1 3000.

Definition isoformat (t : timestamp) : string := "1970-01-01T00:00:00+00:00".

End Sample.

(** ** The rest of the application *)

(** [init_db] on a new database: the three tables, empty. *)
Definition init_db : DB := mkDB [] [] [].

(** [get_db_connection] around a body: [commit] when the body returns,
    [rollback] and re-raise when it raises. *)
Definition get_db_connection {A} (body : M A) : M A :=
  fun db =>
    match body db with
    | (Return a, db') => (Return a, db')
    | (Raise e, _) => (Raise e, db)
    end.

(** A call of one of the writing methods of the services. *)
Inductive call :=
| CreateUser (g : generated) (username password : string)
| CreatePost (g : generated) (title content : string) (author_id : UUID)
| CreateComment (g : generated) (post_id : UUID) (content : string)
    (author_id : UUID).

(** The database a call leaves. *)
Definition run (db : DB) (c : call) : DB :=
  match c with
  | CreateUser g username password =>
      snd (UserService.create_user g username password db)
  | CreatePost g title content author_id =>
      snd (PostService.create_post g title content author_id db)
  | CreateComment g post_id content author_id =>
      snd (CommentService.create_comment g post_id content author_id db)
  end.

(** The database after a history of calls on a new database. *)
Definition history (cs : list call) : DB := fold_left run cs init_db.

(** A string that trimming leaves as it is. *)
Definition trimmed (s : string) : Prop := PyStr.strip s = s.

(** What the code lets into each table. *)
Definition user_row_valid (u : users.row) : Prop :=
  String.length (users.password_hash u) = 64
  /\ Hashlib.all_hex (users.password_hash u) = true.

Definition post_row_valid (p : posts.row) : Prop :=
  1 <= PyStr.len (posts.title p) <= 200 /\ trimmed (posts.title p)
  /\ 1 <= PyStr.len (posts.content p) /\ trimmed (posts.content p)
  /\ posts.updated_at p = None.

Definition comment_row_valid (c : comments.row) : Prop :=
  1 <= PyStr.len (comments.content c) /\ trimmed (comments.content c).

(** The constraints of the schema and the rules of the services, as a
    property of a database. *)
Record db_consistent (db : DB) : Prop := Consistent
  { users_pk : NoDup (map users.id (users_table db));
    users_username_unique : NoDup (map users.username (users_table db));
    posts_pk : NoDup (map posts.id (posts_table db));
    comments_pk : NoDup (map comments.id (comments_table db));
    posts_author_fk :
      forall p, In p (posts_table db) -> user_exists db (posts.author_id p);
    comments_post_fk :
      forall c, In c (comments_table db) -> post_exists db (comments.post_id c);
    comments_author_fk :
      forall c, In c (comments_table db) -> user_exists db (comments.author_id c);
    users_valid : Forall user_row_valid (users_table db);
    posts_valid : Forall post_row_valid (posts_table db);
    comments_valid : Forall comment_row_valid (comments_table db) }.

(** [app/core/config.py] *)
Module Config.

(** [s.split(sep)] for a separator of one character. *)
Fixpoint split (sep : ascii) (s : string) : list string :=
  match s with
  | EmptyString => [EmptyString]
  | String c s' =>
      if Ascii.eqb c sep then EmptyString :: split sep s'
      else
        match split sep s' with
        | [] => [String c EmptyString]
        | piece :: pieces => String c piece :: pieces
        end
  end.

(** [Settings.origins_list] *)
Definition origins_list (ALLOWED_ORIGINS : string) : list string :=
  map PyStr.strip (split "," ALLOWED_ORIGINS).

(** [sep.join(pieces)] *)
Fixpoint join (sep : ascii) (pieces : list string) : string :=
  match pieces with
  | [] => EmptyString
  | [piece] => piece
  | piece :: pieces' => piece ++ String sep (join sep pieces')
  end.

(** The character occurs in the string; how many times. *)
Fixpoint has_char (c : ascii) (s : string) : bool :=
  match s with
  | EmptyString => false
  | String c' s' => Ascii.eqb c' c || has_char c s'
  end.

Fixpoint count_char (c : ascii) (s : string) : nat :=
  match s with
  | EmptyString => 0
  | String c' s' => (if Ascii.eqb c' c then 1 else 0) + count_char c s'
  end.

End Config.

(** More of the monolith's SQL texts, [src/app/main.py]. *)
Module MonolithSql.

(** [str(n)] of a Python [int], as an f-string writes it. *)
Definition str_int (n : Z) : string :=
  DecimalString.NilZero.string_of_int (Z.to_int n).

(** The text [get_post] hands to [db.execute]; [post_id] is an [int]. *)
Definition get_post_statement (post_id : Z) : string :=
  "SELECT * FROM posts WHERE id = " ++ str_int post_id.

(** The text [get_comments] hands to [db.execute]. *)
Definition get_comments_statement (post_id : Z) : string :=
  "SELECT * FROM comments WHERE post_id = " ++ str_int post_id.

(** The string is made of decimal digits. *)
Fixpoint all_digits (s : string) : bool :=
  match s with
  | EmptyString => true
  | String c s' =>
      let n := N_of_ascii c in ((48 <=? n) && (n <=? 57))%N && all_digits s'
  end.

End MonolithSql.

(** The rows carry strictly increasing creation timestamps, in the order
    of the list. *)
Definition created_at_lt (x y : comments.row) : Prop :=
  (comments.created_at x < comments.created_at y)%Z.

Definition strictly_increasing (rows : list comments.row) : Prop :=
  StronglySorted created_at_lt rows.

(** * Properties *)

(** ** Python strings *)

Section PyStrFacts.

Import PyStr.

Lemma lstrip_all_space s : all_space s = true -> lstrip s = EmptyString.
Proof.
  induction s as [|c s IH]; simpl; [reflexivity|].
  intros H. apply andb_true_iff in H as [Hc Hs]. rewrite Hc. auto.
Qed.

Lemma rstrip_all_space s : all_space s = true -> rstrip s = EmptyString.
Proof.
  induction s as [|c s IH]; simpl; [reflexivity|].
  intros H. apply andb_true_iff in H as [Hc Hs].
  rewrite (IH Hs), Hc. reflexivity.
Qed.

Lemma rstrip_empty s : rstrip s = EmptyString -> all_space s = true.
Proof.
  induction s as [|c s IH]; simpl; [reflexivity|].
  destruct (rstrip s) eqn:E; [|discriminate].
  destruct (isspace c) eqn:Ec; [|discriminate].
  intros _. simpl. auto.
Qed.

Lemma lstrip_head s :
  match lstrip s with
  | EmptyString => all_space s = true
  | String c _ => isspace c = false
  end.
Proof.
  induction s as [|c s IH]; simpl; [reflexivity|].
  destruct (isspace c) eqn:Ec; simpl; [exact IH | exact Ec].
Qed.

Lemma all_space_lstrip s : all_space (lstrip s) = true -> all_space s = true.
Proof.
  induction s as [|c s IH]; simpl; [reflexivity|].
  destruct (isspace c) eqn:Ec; simpl; [exact IH|].
  rewrite Ec. discriminate.
Qed.

(** [s.strip()] is empty exactly when [s] is made of whitespace. *)
Lemma strip_empty_iff s : strip s = EmptyString <-> all_space s = true.
Proof.
  unfold strip. split.
  - intros H. apply all_space_lstrip, rstrip_empty, H.
  - intros H. rewrite (lstrip_all_space _ H). reflexivity.
Qed.

Lemma len_lstrip_le s : len (lstrip s) <= len s.
Proof.
  unfold len. induction s as [|c s IH]; simpl; [lia|].
  destruct (isspace c); simpl; lia.
Qed.

Lemma len_rstrip_le s : len (rstrip s) <= len s.
Proof.
  unfold len. induction s as [|c s IH]; simpl; [lia|].
  destruct (rstrip s) eqn:E; [destruct (isspace c)|]; simpl in *; lia.
Qed.

(** Trimming never lengthens. *)
Lemma len_strip_le s : len (strip s) <= len s.
Proof.
  unfold strip. etransitivity; [apply len_rstrip_le | apply len_lstrip_le].
Qed.

Lemma len_zero s : len s = 0 <-> s = EmptyString.
Proof. destruct s; simpl; split; intros H; try reflexivity; discriminate. Qed.

(** The test [not s or len(s.strip()) == 0] of the services. *)
Lemma blank_test s :
  (not_ s || (len (strip s) =? 0)%nat) = true <-> blank s.
Proof.
  unfold blank. rewrite orb_true_iff, Nat.eqb_eq, len_zero. split.
  - intros [H|H]; [|exact H]. destruct s; [reflexivity | discriminate].
  - auto.
Qed.

Lemma blank_test_false s :
  (not_ s || (len (strip s) =? 0)%nat) = false <-> ~ blank s.
Proof.
  rewrite <- blank_test. destruct (not_ s || (len (strip s) =? 0)%nat); split;
    intros H; try reflexivity; try discriminate; try (intros E; discriminate).
  exfalso. apply H. reflexivity.
Qed.

Lemma blank_dec s : {blank s} + {~ blank s}.
Proof. unfold blank. apply string_dec. Qed.

(** What [lstrip] removes is whitespace. *)
Lemma lstrip_split s :
  exists pre, s = pre ++ lstrip s /\ all_space pre = true.
Proof.
  induction s as [|c s (pre & E & Hp)]; simpl.
  - exists EmptyString. auto.
  - destruct (isspace c) eqn:Ec.
    + exists (String c pre). simpl. rewrite Ec, Hp, <- E. auto.
    + exists EmptyString. auto.
Qed.

(** What [rstrip] removes is whitespace. *)
Lemma rstrip_split s :
  exists post, s = rstrip s ++ post /\ all_space post = true.
Proof.
  induction s as [|c s (post & E & Hp)]; simpl.
  - exists EmptyString. auto.
  - destruct (rstrip s) eqn:Er.
    + destruct (isspace c) eqn:Ec.
      * exists (String c post). simpl in *. subst s. rewrite Ec, Hp. auto.
      * exists post. simpl in *. subst s. auto.
    + exists post. simpl in *. rewrite <- E. auto.
Qed.

Lemma rstrip_last s :
  match last_char (rstrip s) with
  | Some c => isspace c = false
  | None => True
  end.
Proof.
  induction s as [|c s IH]; simpl; [exact I|].
  destruct (rstrip s) eqn:Er.
  - destruct (isspace c) eqn:Ec; simpl; auto.
  - simpl in *. exact IH.
Qed.

Lemma rstrip_head c s :
  isspace c = false -> exists r, rstrip (String c s) = String c r.
Proof.
  intros Hc. simpl. destruct (rstrip s); [rewrite Hc|]; eauto.
Qed.

(** [s.strip()] is [s] without its leading and trailing whitespace: [s]
    is whitespace, then [s.strip()], then whitespace, and [s.strip()]
    neither starts nor ends with whitespace. *)
Lemma strip_spec s :
  exists pre post,
    s = pre ++ strip s ++ post
    /\ all_space pre = true /\ all_space post = true
    /\ match strip s with
       | EmptyString => True
       | String c _ => isspace c = false
       end
    /\ match last_char (strip s) with
       | Some c => isspace c = false
       | None => True
       end.
Proof.
  destruct (lstrip_split s) as (pre & E1 & Hpre).
  destruct (rstrip_split (lstrip s)) as (post & E2 & Hpost).
  exists pre, post. unfold strip. repeat split; auto.
  - rewrite <- E2. exact E1.
  - pose proof (lstrip_head s) as Hh.
    destruct (lstrip s) as [|c r] eqn:El; [simpl; exact I|].
    destruct (rstrip_head c r Hh) as (r' & ->). exact Hh.
  - apply rstrip_last.
Qed.


Lemma len_app s t : len (s ++ t) = len s + len t.
Proof. unfold len. induction s; simpl; congruence. Qed.


End PyStrFacts.

(** ** The statements *)

Section SqlFacts.

Lemma existsb_user_id db i :
  existsb (fun r => N.eqb (users.id r) i) (users_table db) = true
  <-> user_exists db i.
Proof.
  rewrite existsb_exists. unfold user_exists.
  split; intros (r & Hin & H); exists r; split; auto; apply N.eqb_eq; auto.
Qed.

Lemma existsb_post_id db i :
  existsb (fun r => N.eqb (posts.id r) i) (posts_table db) = true
  <-> post_exists db i.
Proof.
  rewrite existsb_exists. unfold post_exists.
  split; intros (r & Hin & H); exists r; split; auto; apply N.eqb_eq; auto.
Qed.

Lemma existsb_user_name db name :
  existsb (fun r => String.eqb (users.username r) name) (users_table db) = true
  <-> user_named db name.
Proof.
  rewrite existsb_exists. unfold user_named.
  split; intros (r & Hin & H); exists r; split; auto; apply String.eqb_eq; auto.
Qed.

Lemma existsb_false_fresh {A} (key : A -> N) (l : list A) i :
  existsb (fun r => N.eqb (key r) i) l = false
  <-> (forall r, In r l -> key r <> i).
Proof.
  induction l as [|x l IH]; simpl.
  - split; [intros _ r [] | reflexivity].
  - rewrite orb_false_iff, IH, N.eqb_neq. split.
    + intros [Hx Hl] r [<-|Hr]; auto.
    + intros H. split; [apply H; auto | intros r Hr; apply H; auto].
Qed.

Lemma find_some_iff {A} (p : A -> bool) (l : list A) :
  (exists x, find p l = Some x) <-> (exists x, In x l /\ p x = true).
Proof.
  split.
  - intros (x & H). exists x. apply (find_some _ _ H).
  - intros (x & Hin & Hp). destruct (find p l) eqn:E; [eauto|].
    rewrite (find_none _ _ E x Hin) in Hp. discriminate.
Qed.

Lemma find_none_iff {A} (p : A -> bool) (l : list A) :
  find p l = None <-> (forall x, In x l -> p x = false).
Proof.
  split; [apply find_none|]. intros H. destruct (find p l) eqn:E; [|reflexivity].
  destruct (find_some _ _ E) as [Hin Hp]. rewrite (H _ Hin) in Hp. discriminate.
Qed.

(** The INSERT into [posts] either is refused by a constraint and changes
    nothing, or appends the row it returns. *)
Lemma insert_post_cases g title content author db :
  (exists e, Sql.insert_post g title content author db = (Raise (DatabaseError e), db))
  \/ (let r := posts.Row (gen_random_uuid g) title content author (NOW g) None in
      Sql.insert_post g title content author db
      = (Return r, mkDB (users_table db) (posts_table db ++ [r]) (comments_table db))).
Proof.
  unfold Sql.insert_post.
  destruct (existsb _ (posts_table db)); [left; eauto|].
  destruct (existsb _ (users_table db)); simpl; [right; reflexivity | left; eauto].
Qed.


(** The INSERT into [comments], likewise. *)
Lemma insert_comment_cases g post content author db :
  (exists e, Sql.insert_comment g post content author db = (Raise (DatabaseError e), db))
  \/ (let r := comments.Row (gen_random_uuid g) post content author (NOW g) in
      Sql.insert_comment g post content author db
      = (Return r, mkDB (users_table db) (posts_table db) (comments_table db ++ [r]))).
Proof.
  unfold Sql.insert_comment.
  destruct (existsb _ (comments_table db)); [left; eauto|].
  destruct (_ || _); simpl; [left; eauto | right; reflexivity].
Qed.


(** The INSERT into [users], likewise. *)
Lemma insert_user_cases g name hash db :
  (exists e, Sql.insert_user g name hash db = (Raise (DatabaseError e), db))
  \/ (let r := users.Row (gen_random_uuid g) name hash (NOW g) in
      Sql.insert_user g name hash db
      = (Return (user_dict r),
         mkDB (users_table db ++ [r]) (posts_table db) (comments_table db))).
Proof.
  unfold Sql.insert_user.
  destruct (_ || _); [left; eauto | right; reflexivity].
Qed.


End SqlFacts.

(** ** [PostService] *)

Section PostServiceFacts.

Variables (g : generated) (db : DB).
Variables (title content : string) (author_id : UUID).

Lemma create_post_blank_title :
  blank title ->
  PostService.create_post g title content author_id db
  = (Raise (ValueError "Title cannot be empty"), db).
Proof.
  intros H. unfold PostService.create_post.
  apply blank_test in H. rewrite H. reflexivity.
Qed.

Lemma create_post_long_title :
  ~ blank title -> 200 < PyStr.len title ->
  PostService.create_post g title content author_id db
  = (Raise (ValueError "Title cannot exceed 200 characters"), db).
Proof.
  intros H L. unfold PostService.create_post.
  apply blank_test_false in H. rewrite H.
  apply Nat.ltb_lt in L. rewrite L. reflexivity.
Qed.

Lemma create_post_blank_content :
  ~ blank title -> PyStr.len title <= 200 -> blank content ->
  PostService.create_post g title content author_id db
  = (Raise (ValueError "Content cannot be empty"), db).
Proof.
  intros H L C. unfold PostService.create_post.
  apply blank_test_false in H. rewrite H.
  apply Nat.ltb_ge in L. rewrite L.
  apply blank_test in C. rewrite C. reflexivity.
Qed.

(** Past the three checks the method is its INSERT, of the trimmed
    values. *)
Lemma create_post_valid :
  ~ blank title -> PyStr.len title <= 200 -> ~ blank content ->
  PostService.create_post g title content author_id db
  = Sql.insert_post g (PyStr.strip title) (PyStr.strip content) author_id db.
Proof.
  intros H L C. unfold PostService.create_post.
  apply blank_test_false in H. rewrite H.
  apply Nat.ltb_ge in L. rewrite L.
  apply blank_test_false in C. rewrite C. reflexivity.
Qed.


Lemma create_post_returns post db' :
  PostService.create_post g title content author_id db = (Return post, db') ->
  post = posts.Row (gen_random_uuid g) (PyStr.strip title) (PyStr.strip content)
           author_id (NOW g) None
  /\ db' = mkDB (users_table db) (posts_table db ++ [post])%list (comments_table db).
Proof.
  intros E.
  destruct (blank_dec title) as [Ht|Ht].
  { rewrite (create_post_blank_title Ht) in E. discriminate. }
  destruct (le_lt_dec (PyStr.len title) 200) as [L|L].
  2:{ rewrite (create_post_long_title Ht L) in E. discriminate. }
  destruct (blank_dec content) as [Hc|Hc].
  { rewrite (create_post_blank_content Ht L Hc) in E. discriminate. }
  rewrite (create_post_valid Ht L Hc) in E.
  destruct (insert_post_cases g (PyStr.strip title) (PyStr.strip content)
              author_id db) as [(e & R)|R]; rewrite R in E.
  - discriminate.
  - injection E as <- <-. auto.
Qed.

End PostServiceFacts.



(** C10. In [create_post] the emptiness test runs first and the
    200-character limit is then tested on the title as received.  So a
    title that is not blank, whose trimmed length is at most 200 and whose
    own length exceeds 200 (a title padded with whitespace), is refused
    with "Title cannot exceed 200 characters" although the value that would
    be stored fits; and a title made of whitespace only is refused with
    "Title cannot be empty" whatever its length, also beyond 200. *)
Theorem create_post_limit_on_received_title
    (g : generated) (db : DB) (title content : string) (author_id : UUID) :
  (~ blank title -> PyStr.len (PyStr.strip title) <= 200 ->
   200 < PyStr.len title ->
   PostService.create_post g title content author_id db
   = (Raise (ValueError "Title cannot exceed 200 characters"), db))
  /\ (blank title ->
      PostService.create_post g title content author_id db
      = (Raise (ValueError "Title cannot be empty"), db)).
Proof.
  split.
  - intros Ht _ L. apply create_post_long_title; assumption.
  - apply create_post_blank_title.
Qed.

(** The title "Hello" followed by 200 spaces: 5 characters would be stored,
    205 are counted. *)
Lemma create_post_limit_on_received_title_witness :
  let title := "Hello" ++ PyStr.repeat " " 200 in
  PyStr.strip title = "Hello"
  /\ PostService.create_post Sample.g2 title "Content" 1 Sample.with_alice
     = (Raise (ValueError "Title cannot exceed 200 characters"), Sample.with_alice).
Proof.
  cbv zeta. split; [vm_compute; reflexivity|].
  apply (create_post_limit_on_received_title Sample.g2 Sample.with_alice
           ("Hello" ++ PyStr.repeat " " 200) "Content" 1).
  - unfold blank. vm_compute. discriminate.
  - vm_compute. lia.
  - vm_compute. lia.
Defined.

(** A title of 201 spaces is refused by the emptiness test, which runs
    first. *)
Example create_post_201_spaces :
  let title := PyStr.repeat " " 201 in
  200 < PyStr.len title
  /\ PostService.create_post Sample.g2 title "Content" 1 Sample.with_alice
     = (Raise (ValueError "Title cannot be empty"), Sample.with_alice).
Proof.
  cbv zeta. split; [vm_compute; lia|]. vm_compute. reflexivity.
Qed.

(** C7. [get_post_by_id] never raises: it returns a row of [posts] with the
    given identifier when there is one, and [None] when there is none; the
    handler answers 200 with that post, or 404 "Post not found". *)
Theorem get_post_by_id_row_or_none (db : DB) (post_id : UUID) :
  (post_exists db post_id ->
   exists r, In r (posts_table db) /\ posts.id r = post_id
     /\ PostService.get_post_by_id post_id db = (Return (Some r), db)
     /\ forall isoformat,
          Api.get_post isoformat post_id db
          = (Api.Response 200 (Api.post_response isoformat r), db))
  /\ (~ post_exists db post_id ->
      PostService.get_post_by_id post_id db = (Return None, db)
      /\ forall isoformat,
           Api.get_post isoformat post_id db
           = (Api.HTTPException 404 "Post not found", db))
  /\ (forall e, fst (PostService.get_post_by_id post_id db) <> Raise e).
Proof.
  unfold Api.get_post, PostService.get_post_by_id, Sql.select_post_by_id.
  split; [|split].
  - intros (r0 & Hin & Hid).
    destruct (find (fun r => N.eqb (posts.id r) post_id) (posts_table db)) as [r|] eqn:E.
    + destruct (find_some _ _ E) as [Hr Hk]. apply N.eqb_eq in Hk.
      exists r. repeat split; auto.
    + exfalso. pose proof (find_none _ _ E r0 Hin) as Hk. simpl in Hk.
      apply N.eqb_neq in Hk. contradiction.
  - intros Hn.
    destruct (find (fun r => N.eqb (posts.id r) post_id) (posts_table db)) as [r|] eqn:E.
    + exfalso. destruct (find_some _ _ E) as [Hr Hk]. apply N.eqb_eq in Hk.
      apply Hn. exists r. auto.
    + split; reflexivity.
  - intros e. simpl. discriminate.
Qed.

(** The post created by alice is found; identifier 0 is a miss and a 404. *)
Lemma get_post_by_id_row_or_none_witness :
  (exists r, PostService.get_post_by_id 2 Sample.with_post
             = (Return (Some r), Sample.with_post)
             /\ posts.title r = "Popular Post")
  /\ Api.get_post Sample.isoformat 0 Sample.with_post
     = (Api.HTTPException 404 "Post not found", Sample.with_post).
Proof.
  destruct (get_post_by_id_row_or_none Sample.with_post 2) as (Hf & _ & _).
  destruct (get_post_by_id_row_or_none Sample.with_post 0) as (_ & Hn & _).
  split.
  - destruct Hf as (r & Hin & Hid & E & _).
    + exists (posts.Row 2 "Popular Post" "This got many comments" 1 2000 None).
      split; [left; vm_compute; reflexivity | reflexivity].
    + exists r. split; [exact E|].
      destruct Hin as [<-|[]]. vm_compute. reflexivity.
  - apply Hn. intros (r & [<-|[]] & Hid). vm_compute in Hid. discriminate.
Defined.

(** ** [UserService] *)

Section UserServiceFacts.

Variables (g : generated) (db : DB) (username password : string).

Lemma create_user_duplicate :
  user_named db username ->
  UserService.create_user g username password db
  = (Raise (ValueError ("Username '" ++ username ++ "' already exists")), db).
Proof.
  intros (r & Hin & Hn).
  unfold UserService.create_user, bind, Sql.select_user_id_by_username.
  destruct (find (fun r => String.eqb (users.username r) username) (users_table db))
    eqn:E; [reflexivity|].
  pose proof (find_none _ _ E r Hin) as F. simpl in F.
  apply String.eqb_neq in F. contradiction.
Qed.

(** Without a row of that name the method is its INSERT, of the hash. *)
Lemma create_user_new :
  ~ user_named db username ->
  UserService.create_user g username password db
  = Sql.insert_user g username (UserService._hash_password password) db.
Proof.
  intros Hn.
  unfold UserService.create_user, bind, Sql.select_user_id_by_username.
  destruct (find (fun r => String.eqb (users.username r) username) (users_table db))
    as [r|] eqn:E; [|reflexivity].
  exfalso. destruct (find_some _ _ E) as [Hin F]. apply String.eqb_eq in F.
  apply Hn. exists r. auto.
Qed.

Lemma user_named_dec : {user_named db username} + {~ user_named db username}.
Proof.
  destruct (existsb (fun r => String.eqb (users.username r) username) (users_table db))
    eqn:E.
  - left. apply existsb_user_name, E.
  - right. intros H. apply existsb_user_name in H. congruence.
Qed.



Lemma create_user_returns u db' :
  UserService.create_user g username password db = (Return u, db') ->
  ~ user_named db username
  /\ u = user.Dict (gen_random_uuid g) username (NOW g)
  /\ db' = mkDB (users_table db
                 ++ [users.Row (gen_random_uuid g) username
                       (UserService._hash_password password) (NOW g)])
             (posts_table db) (comments_table db).
Proof.
  intros E. destruct user_named_dec as [H|H].
  { rewrite (create_user_duplicate H) in E. discriminate. }
  split; [exact H|]. rewrite (create_user_new H) in E.
  destruct (insert_user_cases g username (UserService._hash_password password) db)
    as [(e & R)|R]; rewrite R in E; [discriminate|].
  injection E as <- <-. auto.
Qed.

(** A failure of any kind writes nothing. *)
Lemma create_user_raise_unchanged e db' :
  UserService.create_user g username password db = (Raise e, db') -> db' = db.
Proof.
  intros E. destruct user_named_dec as [H|H].
  { rewrite (create_user_duplicate H) in E. congruence. }
  rewrite (create_user_new H) in E.
  destruct (insert_user_cases g username (UserService._hash_password password) db)
    as [(e' & R)|R]; rewrite R in E; congruence.
Qed.

Lemma authenticate_user_eq :
  UserService.authenticate_user username password db
  = (Return (option_map user_dict
               (find (fun r => String.eqb (users.username r) username
                               && String.eqb (users.password_hash r)
                                    (UserService._hash_password password))
                     (users_table db))), db).
Proof.
  unfold UserService.authenticate_user, bind, Sql.select_user_by_credentials, ret.
  destruct (find _ (users_table db)); reflexivity.
Qed.


Lemma authenticate_user_miss :
  ~ credentials_match db username (UserService._hash_password password) ->
  UserService.authenticate_user username password db = (Return None, db).
Proof.
  intros Hn. rewrite authenticate_user_eq.
  destruct (find _ (users_table db)) as [r|] eqn:E; [|reflexivity].
  exfalso. destruct (find_some _ _ E) as [Hr F]. apply andb_true_iff in F as [F1 F2].
  apply String.eqb_eq in F1, F2. apply Hn. exists r. auto.
Qed.

End UserServiceFacts.

Lemma find_app_miss {A} (p : A -> bool) (l : list A) (x : A) :
  (forall y, In y l -> p y = false) -> find p (l ++ [x]) = find p [x].
Proof.
  induction l as [|y l IH]; simpl; intros H; [reflexivity|].
  rewrite (H y) by auto. apply IH. intros z Hz. apply H. auto.
Qed.


(** ** Digests *)

Section HashFacts.

Import Hashlib.

Lemma hexdigit_is_hex n : (n < 16)%N -> is_hexdigit (hexdigit n) = true.
Proof.
  intros H. rewrite <- (N2Nat.id n).
  assert (L : N.to_nat n < 16) by lia. revert L.
  generalize (N.to_nat n) as k. intros k L.
  do 16 (destruct k as [|k]; [vm_compute; reflexivity|]). lia.
Qed.

Lemma hex_len bs : String.length (hex bs) = 2 * List.length bs.
Proof. induction bs as [|x bs IH]; cbn [hex String.length List.length]; lia. Qed.

Lemma hex_all_hex bs : all_hex (hex bs) = true.
Proof.
  induction bs as [|x bs IH]; cbn [hex all_hex]; [reflexivity|].
  rewrite !hexdigit_is_hex, IH; try reflexivity;
    apply N.mod_lt; discriminate.
Qed.

Lemma sha256_digest_len msg : List.length (SHA256.digest msg) = 32.
Proof. unfold SHA256.digest, be32. cbv zeta. rewrite !length_app. reflexivity. Qed.

Lemma md5_digest_len msg : List.length (MD5.digest msg) = 16.
Proof. unfold MD5.digest, le32. cbv zeta. rewrite !length_app. reflexivity. Qed.

(** A SHA-256 hexdigest is 64 lowercase hexadecimal digits, an MD5
    hexdigest 32. *)
Lemma sha256_hexdigest_shape data :
  String.length (sha256_hexdigest data) = 64
  /\ all_hex (sha256_hexdigest data) = true.
Proof.
  unfold sha256_hexdigest. rewrite hex_len, sha256_digest_len, hex_all_hex. auto.
Qed.

Lemma md5_hexdigest_shape data :
  String.length (md5_hexdigest data) = 32
  /\ all_hex (md5_hexdigest data) = true.
Proof.
  unfold md5_hexdigest. rewrite hex_len, md5_digest_len, hex_all_hex. auto.
Qed.

End HashFacts.


(** The digests agree with [hashlib] on its test vectors. *)

Example sha256_abc :
  Hashlib.sha256_hexdigest (Hashlib.encode "abc")
  = "ba7816bf8f01cfea414140de5dae2223b00361a396177a9cb410ff61f20015ad".
Proof. vm_compute. reflexivity. Qed.

Example sha256_empty :
  Hashlib.sha256_hexdigest (Hashlib.encode "")
  = "e3b0c44298fc1c149afbf4c8996fb92427ae41e4649b934ca495991b7852b855".
Proof. vm_compute. reflexivity. Qed.

Example md5_abc :
  Hashlib.md5_hexdigest (Hashlib.encode "abc") = "900150983cd24fb0d6963f7d28e17f72".
Proof. vm_compute. reflexivity. Qed.

Example md5_empty :
  Hashlib.md5_hexdigest (Hashlib.encode "") = "d41d8cd98f00b204e9800998ecf8427e".
Proof. vm_compute. reflexivity. Qed.

(** A message of two blocks, and one with characters above U+007F. *)
Example sha256_two_blocks :
  Hashlib.sha256_hexdigest (Hashlib.encode (PyStr.repeat "z" 64))
  = "72996563049cc84daa2c3f31fd5c3d10770e69d6ebbb8da5b6d76db303dbae43".
Proof. vm_compute. reflexivity. Qed.

Example md5_two_blocks :
  Hashlib.md5_hexdigest (Hashlib.encode (PyStr.repeat "z" 64))
  = "3ecc49f9d9d6c263b4f0de7fc3f38aed".
Proof. vm_compute. reflexivity. Qed.

Example sha256_latin1 :
  Hashlib.sha256_hexdigest
    (Hashlib.encode (String "p" (String (ascii_of_nat 228) "ss")))
  = "73c2e2fd2aec66e50135a01b2a007fcc23e4d35010637f98541e453a8665d25d".
Proof. vm_compute. reflexivity. Qed.

Lemma register_of_create_user g username password db :
  Api.register g (Api.RegisterRequest.Make username password) db
  = match UserService.create_user g username password db with
    | (Return u, db') =>
        (Api.Response 201
           (Api.RegisterResponse.Make (str_uuid (user.id u)) (user.username u)), db')
    | (Raise (ValueError e), db') => (Api.HTTPException 400 e, db')
    | (Raise _, db') => (Api.internal_server_error, db')
    end.
Proof. reflexivity. Qed.

Lemma login_of_authenticate_user username password db :
  Api.login (Api.LoginRequest.Make username password) db
  = match UserService.authenticate_user username password db with
    | (Return None, db') => (Api.HTTPException 401 "Invalid credentials", db')
    | (Return (Some u), db') =>
        (Api.Response 200
           (Api.LoginResponse.Make (str_uuid (user.id u)) (user.username u)), db')
    | (Raise _, db') => (Api.internal_server_error, db')
    end.
Proof. reflexivity. Qed.










(** ** [CommentService] *)

Section CommentServiceFacts.

Variables (g : generated) (db : DB).
Variables (post_id : UUID) (content : string) (author_id : UUID).

Lemma create_comment_blank :
  blank content ->
  CommentService.create_comment g post_id content author_id db
  = (Raise (ValueError "Content cannot be empty"), db).
Proof.
  intros H. unfold CommentService.create_comment.
  apply blank_test in H. rewrite H. reflexivity.
Qed.

Lemma create_comment_no_post :
  ~ blank content -> ~ post_exists db post_id ->
  CommentService.create_comment g post_id content author_id db
  = (Raise (ValueError ("Post with ID " ++ str_uuid post_id ++ " not found")), db).
Proof.
  intros H Hp. unfold CommentService.create_comment.
  apply blank_test_false in H. rewrite H.
  unfold bind, Sql.select_post_id.
  destruct (find (fun r => N.eqb (posts.id r) post_id) (posts_table db)) as [r|] eqn:E;
    [|reflexivity].
  exfalso. destruct (find_some _ _ E) as [Hin F]. apply N.eqb_eq in F.
  apply Hp. exists r. auto.
Qed.

(** Past the two checks the method is its INSERT, of the trimmed content. *)
Lemma create_comment_valid :
  ~ blank content -> post_exists db post_id ->
  CommentService.create_comment g post_id content author_id db
  = Sql.insert_comment g post_id (PyStr.strip content) author_id db.
Proof.
  intros H (r0 & Hin & Hid). unfold CommentService.create_comment.
  apply blank_test_false in H. rewrite H.
  unfold bind, Sql.select_post_id.
  destruct (find (fun r => N.eqb (posts.id r) post_id) (posts_table db)) as [r|] eqn:E;
    [reflexivity|].
  exfalso. pose proof (find_none _ _ E r0 Hin) as F. cbn beta in F.
  apply N.eqb_neq in F. contradiction.
Qed.

Lemma post_exists_dec : {post_exists db post_id} + {~ post_exists db post_id}.
Proof.
  destruct (existsb (fun r => N.eqb (posts.id r) post_id) (posts_table db)) eqn:E.
  - left. apply existsb_post_id, E.
  - right. intros H. apply existsb_post_id in H. congruence.
Qed.

Lemma create_comment_returns c db' :
  CommentService.create_comment g post_id content author_id db = (Return c, db') ->
  ~ blank content /\ post_exists db post_id
  /\ c = comments.Row (gen_random_uuid g) post_id (PyStr.strip content)
           author_id (NOW g)
  /\ db' = mkDB (users_table db) (posts_table db) (comments_table db ++ [c])%list.
Proof.
  intros E. destruct (blank_dec content) as [Hc|Hc].
  { rewrite (create_comment_blank Hc) in E. discriminate. }
  destruct post_exists_dec as [Hp|Hp].
  2:{ rewrite (create_comment_no_post Hc Hp) in E. discriminate. }
  rewrite (create_comment_valid Hc Hp) in E.
  destruct (insert_comment_cases g post_id (PyStr.strip content) author_id db)
    as [(e & R)|R]; rewrite R in E; [discriminate|].
  injection E as <- <-. auto.
Qed.

Lemma create_comment_raise_unchanged e db' :
  CommentService.create_comment g post_id content author_id db = (Raise e, db') ->
  db' = db.
Proof.
  intros E. destruct (blank_dec content) as [Hc|Hc].
  { rewrite (create_comment_blank Hc) in E. congruence. }
  destruct post_exists_dec as [Hp|Hp].
  2:{ rewrite (create_comment_no_post Hc Hp) in E. congruence. }
  rewrite (create_comment_valid Hc Hp) in E.
  destruct (insert_comment_cases g post_id (PyStr.strip content) author_id db)
    as [(e' & R)|R]; rewrite R in E; congruence.
Qed.

End CommentServiceFacts.


Lemma create_comment_of_service isoformat g post_id content author_id db :
  Api.create_comment isoformat g post_id
    (Api.CreateCommentRequest.Make content author_id) db
  = match CommentService.create_comment g post_id content author_id db with
    | (Return c, db') => (Api.Response 201 (Api.comment_response isoformat c), db')
    | (Raise (ValueError e), db') => (Api.HTTPException 400 e, db')
    | (Raise _, db') => (Api.internal_server_error, db')
    end.
Proof. reflexivity. Qed.



(** ** [ORDER BY created_at ASC] *)

Section EngineFacts.

Import Engine.

Lemma insert_after_perm x l : Permutation (x :: l) (insert_after x l).
Proof.
  induction l as [|y l IH]; cbn [insert_after]; [reflexivity|].
  destruct (_ <=? _)%Z; [|reflexivity].
  rewrite perm_swap. apply perm_skip, IH.
Qed.

Lemma insert_before_perm x l : Permutation (x :: l) (insert_before x l).
Proof.
  induction l as [|y l IH]; cbn [insert_before]; [reflexivity|].
  destruct (_ <=? _)%Z; [reflexivity|].
  rewrite perm_swap. apply perm_skip, IH.
Qed.

Lemma created_at_le_trans x y z :
  created_at_le x y -> created_at_le y z -> created_at_le x z.
Proof. unfold created_at_le. lia. Qed.

Lemma insert_after_sorted x l :
  StronglySorted created_at_le l -> StronglySorted created_at_le (insert_after x l).
Proof.
  induction 1 as [|y l Hs IH Hy]; cbn [insert_after].
  - repeat constructor.
  - destruct (_ <=? _)%Z eqn:E.
    + apply Z.leb_le in E. constructor; [exact IH|].
      apply (Permutation_Forall (insert_after_perm x l)). constructor; assumption.
    + apply Z.leb_gt in E. constructor; [constructor; assumption|].
      constructor; [unfold created_at_le; lia|].
      eapply Forall_impl; [|exact Hy].
      intros z Hz. unfold created_at_le in *. lia.
Qed.

Lemma insert_before_sorted x l :
  StronglySorted created_at_le l -> StronglySorted created_at_le (insert_before x l).
Proof.
  induction 1 as [|y l Hs IH Hy]; cbn [insert_before].
  - repeat constructor.
  - destruct (_ <=? _)%Z eqn:E.
    + apply Z.leb_le in E. constructor; [constructor; assumption|].
      constructor; [exact E|].
      eapply Forall_impl; [|exact Hy].
      intros z Hz. unfold created_at_le in *. lia.
    + apply Z.leb_gt in E. constructor; [exact IH|].
      apply (Permutation_Forall (insert_before_perm x l)).
      constructor; [unfold created_at_le; lia | assumption].
Qed.

Lemma fold_insert_contract (ins : comments.row -> list comments.row -> list comments.row) :
  (forall x l, Permutation (x :: l) (ins x l)) ->
  (forall x l, StronglySorted created_at_le l -> StronglySorted created_at_le (ins x l)) ->
  forall rows acc,
    StronglySorted created_at_le acc ->
    Permutation (acc ++ rows) (fold_left (fun a x => ins x a) rows acc)
    /\ StronglySorted created_at_le (fold_left (fun a x => ins x a) rows acc).
Proof.
  intros Hp Hs. induction rows as [|x rows IH]; intros acc Ha; cbn [fold_left].
  - rewrite app_nil_r. auto.
  - destruct (IH (ins x acc) (Hs x acc Ha)) as [P S]. split; [|exact S].
    rewrite <- P. rewrite <- Permutation_middle.
    exact (Permutation_app_tail rows (Hp x acc)).
Qed.

(** Both sorts are sorts the database may run. *)
Lemma sort_scan_contract : order_by_contract sort_scan.
Proof.
  intros rows. unfold sort_scan.
  apply (fold_insert_contract insert_after
           insert_after_perm insert_after_sorted rows []). constructor.
Qed.

Lemma sort_scan_front_contract : order_by_contract sort_scan_front.
Proof.
  intros rows. unfold sort_scan_front.
  apply (fold_insert_contract insert_before
           insert_before_perm insert_before_sorted rows []). constructor.
Qed.

End EngineFacts.



Section ListComments.

(** Whatever sort the database runs. *)
Variable order_by_created_at : list comments.row -> list comments.row.
Hypothesis order_by_ok : order_by_contract order_by_created_at.

Variables (db : DB) (post_id : UUID).

Lemma list_comments_eq :
  CommentService.list_comments_by_post order_by_created_at post_id db
  = (Return (order_by_created_at (comments_of db post_id)), db).
Proof. reflexivity. Qed.

Lemma list_comments_in c :
  In c (order_by_created_at (comments_of db post_id))
  <-> In c (comments_table db) /\ comments.post_id c = post_id.
Proof.
  destruct (order_by_ok (comments_of db post_id)) as [P _]. unfold comments_of in *.
  split.
  - intros H. apply (Permutation_in _ (Permutation_sym P)) in H.
    apply filter_In in H as [H1 H2]. apply N.eqb_eq in H2. auto.
  - intros [H1 H2]. apply (Permutation_in _ P).
    apply filter_In. split; [exact H1|]. apply N.eqb_eq, H2.
Qed.

End ListComments.

(** C5. Whatever sort the database runs for ORDER BY,
    [list_comments_by_post] returns exactly the rows of [comments] whose
    [post_id] is the given one, each once, so as many as the post has, with
    non-decreasing [created_at]; it returns the empty list when no comment
    references the identifier, which is the case of a post without comments
    and of an identifier that no post has. *)
Theorem list_comments_by_post_sorted
    (order_by_created_at : list comments.row -> list comments.row)
    (order_by_ok : order_by_contract order_by_created_at)
    (db : DB) (post_id : UUID) :
  exists cs,
    CommentService.list_comments_by_post order_by_created_at post_id db
    = (Return cs, db)
    /\ (forall c, In c cs
                  <-> In c (comments_table db) /\ comments.post_id c = post_id)
    /\ Permutation (comments_of db post_id) cs
    /\ List.length cs = List.length (comments_of db post_id)
    /\ StronglySorted created_at_le cs
    /\ ((forall c, In c (comments_table db) -> comments.post_id c <> post_id) ->
        cs = [])
    /\ (comments_reference_posts db -> ~ post_exists db post_id -> cs = []).
Proof.
  exists (order_by_created_at (comments_of db post_id)).
  destruct (order_by_ok (comments_of db post_id)) as [P S].
  split; [apply list_comments_eq|].
  split; [intros c; apply list_comments_in, order_by_ok|].
  split; [exact P|]. split; [symmetry; apply Permutation_length, P|].
  split; [exact S|].
  assert (Hnone : (forall c, In c (comments_table db) -> comments.post_id c <> post_id) ->
                  order_by_created_at (comments_of db post_id) = []).
  { intros Hn.
    destruct (order_by_created_at (comments_of db post_id)) as [|c cs] eqn:E;
      [reflexivity|].
    exfalso. assert (Hc : In c (order_by_created_at (comments_of db post_id)))
      by (rewrite E; left; reflexivity).
    apply (list_comments_in _ order_by_ok) in Hc as [Hin Hid].
    exact (Hn c Hin Hid). }
  split; [exact Hnone|].
  intros Hfk Hp. apply Hnone. intros c Hin Hid. apply Hp.
  rewrite <- Hid. apply Hfk, Hin.
Qed.

(** With the scan sort, the two comments of alice's post come back, and
    the post that does not exist has none. *)
Lemma list_comments_by_post_sorted_witness :
  (exists cs,
     CommentService.list_comments_by_post Engine.sort_scan 2 Sample.with_comments
     = (Return cs, Sample.with_comments) /\ List.length cs = 2)
  /\ CommentService.list_comments_by_post Engine.sort_scan 0 Sample.with_comments
     = (Return [], Sample.with_comments).
Proof.
  split.
  - destruct (list_comments_by_post_sorted Engine.sort_scan sort_scan_contract
                Sample.with_comments 2) as (cs & E & _ & _ & L & _).
    exists cs. split; [exact E|]. rewrite L. vm_compute. reflexivity.
  - destruct (list_comments_by_post_sorted Engine.sort_scan sort_scan_contract
                Sample.with_comments 0) as (cs & E & _ & _ & _ & _ & Hn & _).
    rewrite E, Hn; [reflexivity|].
    intros c Hin. vm_compute in Hin. destruct Hin as [<-|[<-|[]]]; discriminate.
Defined.




(** ** The REFERENCES constraint as an invariant *)

Lemma post_exists_grow db db' i :
  (forall r, In r (posts_table db) -> In r (posts_table db')) ->
  post_exists db i -> post_exists db' i.
Proof. intros H (r & Hin & Hid). exists r. auto. Qed.

(** Every service method keeps the comments pointing at posts. *)
Lemma services_keep_references (db : DB) :
  comments_reference_posts db ->
  (forall g username password,
      comments_reference_posts (snd (UserService.create_user g username password db)))
  /\ (forall g title content author_id,
        comments_reference_posts
          (snd (PostService.create_post g title content author_id db)))
  /\ (forall g post_id content author_id,
        comments_reference_posts
          (snd (CommentService.create_comment g post_id content author_id db))).
Proof.
  intros Inv. split; [|split].
  - intros g username password.
    destruct (UserService.create_user g username password db) as [[u|e] db'] eqn:E.
    + apply create_user_returns in E as (_ & _ & ->). exact Inv.
    + apply create_user_raise_unchanged in E as ->. exact Inv.
  - intros g title content author_id.
    destruct (PostService.create_post g title content author_id db)
      as [[p|e] db'] eqn:E.
    + apply create_post_returns in E as (_ & ->). intros c Hc.
      apply (post_exists_grow db); [|apply Inv, Hc].
      intros r Hr. cbn [posts_table]. apply in_or_app. auto.
    + cbn [snd]. destruct (blank_dec title) as [Ht|Ht].
      { rewrite (create_post_blank_title g db title content author_id Ht) in E.
        injection E as _ <-. exact Inv. }
      destruct (le_lt_dec (PyStr.len title) 200) as [L|L].
      2:{ rewrite (create_post_long_title g db title content author_id Ht L) in E.
          injection E as _ <-. exact Inv. }
      destruct (blank_dec content) as [Hc|Hc].
      { rewrite (create_post_blank_content g db title content author_id Ht L Hc) in E.
        injection E as _ <-. exact Inv. }
      rewrite (create_post_valid g db title content author_id Ht L Hc) in E.
      destruct (insert_post_cases g (PyStr.strip title) (PyStr.strip content)
                  author_id db) as [(e' & R)|R]; rewrite R in E.
      * injection E as _ <-. exact Inv.
      * discriminate.
  - intros g post_id content author_id.
    destruct (CommentService.create_comment g post_id content author_id db)
      as [[c|e] db'] eqn:E.
    + apply create_comment_returns in E as (_ & Hp & Hc & ->). cbn [snd].
      intros c' Hin. cbn [comments_table] in Hin.
      apply in_app_or in Hin as [Hin|[<-|[]]].
      * apply (post_exists_grow db); [auto | apply Inv, Hin].
      * rewrite Hc. cbn [comments.post_id]. apply (post_exists_grow db); auto.
    + apply create_comment_raise_unchanged in E as ->. exact Inv.
Qed.

(** * More of the code *)

(** ** Trimming is a normal form *)

Section TrimFacts.

Import PyStr.

Lemma lstrip_id s :
  match s with
  | EmptyString => True
  | String c _ => isspace c = false
  end -> lstrip s = s.
Proof. destruct s as [|c s]; cbn [lstrip]; [reflexivity|]. intros ->. reflexivity. Qed.

Lemma rstrip_id s :
  match last_char s with
  | Some c => isspace c = false
  | None => True
  end -> rstrip s = s.
Proof.
  induction s as [|c s IH]; cbn [rstrip last_char]; [reflexivity|].
  destruct s as [|c' s'].
  - cbn [rstrip]. intros ->. reflexivity.
  - intros H. rewrite (IH H). reflexivity.
Qed.

Lemma strip_trimmed s : trimmed (strip s).
Proof.
  destruct (strip_spec s) as (pre & post & _ & _ & _ & Hh & Hl).
  unfold trimmed. unfold strip at 1.
  rewrite (lstrip_id _ Hh). apply rstrip_id, Hl.
Qed.

Lemma not_blank_len s : ~ blank s -> 1 <= len (strip s).
Proof.
  unfold blank. intros H. destruct (strip s); [contradiction|].
  unfold len. cbn [String.length]. lia.
Qed.

Lemma trimmed_blank s : trimmed s -> blank s -> s = EmptyString.
Proof. unfold trimmed, blank. congruence. Qed.

End TrimFacts.

(** ** What a successful INSERT tells *)

Section InsertInversion.

Lemma insert_user_inv g name hash db u db' :
  Sql.insert_user g name hash db = (Return u, db') ->
  fresh_user_id db (gen_random_uuid g) /\ ~ user_named db name.
Proof.
  unfold Sql.insert_user.
  destruct (existsb (fun r => N.eqb (users.id r) (gen_random_uuid g)) (users_table db))
    eqn:E1; [discriminate|].
  destruct (existsb (fun r => String.eqb (users.username r) name) (users_table db))
    eqn:E2; [discriminate|].
  intros _. split.
  - exact (proj1 (existsb_false_fresh users.id _ _) E1).
  - intros H. apply existsb_user_name in H. congruence.
Qed.

Lemma insert_post_inv g title content author db p db' :
  Sql.insert_post g title content author db = (Return p, db') ->
  fresh_post_id db (gen_random_uuid g) /\ user_exists db author.
Proof.
  unfold Sql.insert_post.
  destruct (existsb (fun r => N.eqb (posts.id r) (gen_random_uuid g)) (posts_table db))
    eqn:E1; [discriminate|].
  destruct (existsb (fun r => N.eqb (users.id r) author) (users_table db))
    eqn:E2; [|discriminate].
  intros _. split.
  - exact (proj1 (existsb_false_fresh posts.id _ _) E1).
  - apply existsb_user_id, E2.
Qed.

Lemma insert_comment_inv g post content author db c db' :
  Sql.insert_comment g post content author db = (Return c, db') ->
  fresh_comment_id db (gen_random_uuid g)
  /\ post_exists db post /\ user_exists db author.
Proof.
  unfold Sql.insert_comment.
  destruct (existsb (fun r => N.eqb (comments.id r) (gen_random_uuid g))
              (comments_table db)) eqn:E1; [discriminate|].
  destruct (existsb (fun r => N.eqb (posts.id r) post) (posts_table db))
    eqn:E2; [|discriminate].
  destruct (existsb (fun r => N.eqb (users.id r) author) (users_table db))
    eqn:E3; [|discriminate].
  intros _. split; [|split].
  - exact (proj1 (existsb_false_fresh comments.id _ _) E1).
  - apply existsb_post_id, E2.
  - apply existsb_user_id, E3.
Qed.



End InsertInversion.

(** What a successful call of each method tells, all at once. *)
Lemma create_user_success g db username password u db' :
  UserService.create_user g username password db = (Return u, db') ->
  fresh_user_id db (gen_random_uuid g) /\ ~ user_named db username
  /\ u = user.Dict (gen_random_uuid g) username (NOW g)
  /\ db' = mkDB (users_table db
                 ++ [users.Row (gen_random_uuid g) username
                       (UserService._hash_password password) (NOW g)])%list
             (posts_table db) (comments_table db).
Proof.
  intros E. pose proof E as E'.
  apply create_user_returns in E' as (Hn & Hu & Hdb).
  rewrite (create_user_new g db username password Hn) in E.
  apply insert_user_inv in E as [Hf _]. auto.
Qed.

Lemma create_post_success g db title content author_id p db' :
  PostService.create_post g title content author_id db = (Return p, db') ->
  ~ blank title /\ PyStr.len title <= 200 /\ ~ blank content
  /\ fresh_post_id db (gen_random_uuid g) /\ user_exists db author_id
  /\ p = posts.Row (gen_random_uuid g) (PyStr.strip title) (PyStr.strip content)
           author_id (NOW g) None
  /\ db' = mkDB (users_table db) (posts_table db ++ [p])%list (comments_table db).
Proof.
  intros E. pose proof E as E'. apply create_post_returns in E' as [Hp Hdb].
  destruct (blank_dec title) as [Ht|Ht].
  { rewrite (create_post_blank_title g db title content author_id Ht) in E.
    discriminate. }
  destruct (le_lt_dec (PyStr.len title) 200) as [L|L].
  2:{ rewrite (create_post_long_title g db title content author_id Ht L) in E.
      discriminate. }
  destruct (blank_dec content) as [Hc|Hc].
  { rewrite (create_post_blank_content g db title content author_id Ht L Hc) in E.
    discriminate. }
  rewrite (create_post_valid g db title content author_id Ht L Hc) in E.
  apply insert_post_inv in E as [Hf Hu]. repeat split; auto.
Qed.

Lemma create_comment_success g db post_id content author_id c db' :
  CommentService.create_comment g post_id content author_id db = (Return c, db') ->
  ~ blank content /\ post_exists db post_id
  /\ fresh_comment_id db (gen_random_uuid g) /\ user_exists db author_id
  /\ c = comments.Row (gen_random_uuid g) post_id (PyStr.strip content)
           author_id (NOW g)
  /\ db' = mkDB (users_table db) (posts_table db) (comments_table db ++ [c])%list.
Proof.
  intros E. pose proof E as E'.
  apply create_comment_returns in E' as (Hc & Hp & Hrow & Hdb).
  rewrite (create_comment_valid g db post_id content author_id Hc Hp) in E.
  apply insert_comment_inv in E as (Hf & _ & Hu). repeat split; auto.
Qed.

Lemma create_post_raise_unchanged g db title content author_id e db' :
  PostService.create_post g title content author_id db = (Raise e, db') -> db' = db.
Proof.
  intros E. destruct (blank_dec title) as [Ht|Ht].
  { rewrite (create_post_blank_title g db title content author_id Ht) in E.
    congruence. }
  destruct (le_lt_dec (PyStr.len title) 200) as [L|L].
  2:{ rewrite (create_post_long_title g db title content author_id Ht L) in E.
      congruence. }
  destruct (blank_dec content) as [Hc|Hc].
  { rewrite (create_post_blank_content g db title content author_id Ht L Hc) in E.
    congruence. }
  rewrite (create_post_valid g db title content author_id Ht L Hc) in E.
  destruct (insert_post_cases g (PyStr.strip title) (PyStr.strip content)
              author_id db) as [(e' & R)|R]; rewrite R in E; congruence.
Qed.

(** ** The invariant of the database *)

Section InvariantFacts.

Lemma NoDup_snoc {A} (l : list A) (x : A) :
  NoDup l -> ~ In x l -> NoDup (l ++ [x]).
Proof.
  intros Hl Hx. apply (Permutation_NoDup (Permutation_cons_append l x)).
  constructor; assumption.
Qed.

Lemma NoDup_map_snoc {A B} (key : A -> B) (l : list A) (x : A) :
  NoDup (map key l) -> (forall r, In r l -> key r <> key x) ->
  NoDup (map key (l ++ [x])).
Proof.
  intros Hl Hx. rewrite map_app. apply NoDup_snoc; [exact Hl|].
  intros H. apply in_map_iff in H as (r & E & Hr). exact (Hx r Hr E).
Qed.

Lemma user_exists_grow db db' i :
  (forall r, In r (users_table db) -> In r (users_table db')) ->
  user_exists db i -> user_exists db' i.
Proof. intros H (r & Hin & Hid). exists r. auto. Qed.

Lemma consistent_init_db : db_consistent init_db.
Proof.
  constructor; cbn; try constructor; intros ? [].
Qed.

Lemma consistent_create_user g db username password u db' :
  db_consistent db ->
  UserService.create_user g username password db = (Return u, db') ->
  db_consistent db'.
Proof.
  intros C E. apply create_user_success in E as (Hf & Hn & _ & ->).
  destruct C as [Upk Uun Ppk Cpk Pfk Cpf Caf Uv Pv Cv]. constructor; cbn [users_table posts_table comments_table]; auto.
  - apply NoDup_map_snoc; [assumption|]. intros r Hr. apply Hf, Hr.
  - apply NoDup_map_snoc; [assumption|]. intros r Hr E.
    apply Hn. exists r. auto.
  - intros p Hp. destruct (Pfk p Hp) as (r & Hr & Hid).
    exists r. split; [apply in_or_app; auto | exact Hid].
  - intros c Hc. destruct (Caf c Hc) as (r & Hr & Hid).
    exists r. split; [apply in_or_app; auto | exact Hid].
  - apply Forall_app. split; [assumption|]. constructor; [|constructor].
    unfold user_row_valid, UserService._hash_password. cbn [users.password_hash].
    apply sha256_hexdigest_shape.
Qed.

Lemma consistent_create_post g db title content author_id p db' :
  db_consistent db ->
  PostService.create_post g title content author_id db = (Return p, db') ->
  db_consistent db'.
Proof.
  intros C E.
  apply create_post_success in E as (Ht & L & Hc & Hf & Hu & -> & ->).
  destruct C as [Upk Uun Ppk Cpk Pfk Cpf Caf Uv Pv Cv]. constructor; cbn [users_table posts_table comments_table]; auto.
  - apply NoDup_map_snoc; [assumption|]. intros r Hr. apply Hf, Hr.
  - intros p Hp. apply in_app_or in Hp as [Hp|[<-|[]]]; [exact (Pfk p Hp)|exact Hu].
  - intros c Hin. destruct (Cpf c Hin) as (r & Hr & Hid).
    exists r. split; [apply in_or_app; auto | exact Hid].
  - apply Forall_app. split; [assumption|]. constructor; [|constructor].
    unfold post_row_valid.
    cbn [posts.title posts.content posts.updated_at].
    pose proof (len_strip_le title). pose proof (not_blank_len title Ht).
    pose proof (not_blank_len content Hc).
    repeat split; auto using strip_trimmed; lia.
Qed.

Lemma consistent_create_comment g db post_id content author_id c db' :
  db_consistent db ->
  CommentService.create_comment g post_id content author_id db = (Return c, db') ->
  db_consistent db'.
Proof.
  intros C E.
  apply create_comment_success in E as (Hc & Hp & Hf & Hu & -> & ->).
  destruct C as [Upk Uun Ppk Cpk Pfk Cpf Caf Uv Pv Cv]. constructor; cbn [users_table posts_table comments_table]; auto.
  - apply NoDup_map_snoc; [assumption|]. intros r Hr. apply Hf, Hr.
  - intros c Hin. apply in_app_or in Hin as [Hin|[<-|[]]]; [exact (Cpf c Hin)|exact Hp].
  - intros c Hin. apply in_app_or in Hin as [Hin|[<-|[]]]; [exact (Caf c Hin)|exact Hu].
  - apply Forall_app. split; [assumption|]. constructor; [|constructor].
    unfold comment_row_valid. cbn [comments.content].
    split; [apply not_blank_len, Hc | apply strip_trimmed].
Qed.

Lemma consistent_run db c : db_consistent db -> db_consistent (run db c).
Proof.
  intros C. destruct c as [g username password | g title content author_id
                          | g post_id content author_id]; cbn [run].
  - destruct (UserService.create_user g username password db) as [[u|e] db'] eqn:E;
      cbn [snd].
    + eapply consistent_create_user; eassumption.
    + apply create_user_raise_unchanged in E as ->. exact C.
  - destruct (PostService.create_post g title content author_id db)
      as [[p|e] db'] eqn:E; cbn [snd].
    + eapply consistent_create_post; eassumption.
    + apply create_post_raise_unchanged in E as ->. exact C.
  - destruct (CommentService.create_comment g post_id content author_id db)
      as [[c|e] db'] eqn:E; cbn [snd].
    + eapply consistent_create_comment; eassumption.
    + apply create_comment_raise_unchanged in E as ->. exact C.
Qed.

End InvariantFacts.

(** X1. Whatever calls of [create_user], [create_post] and [create_comment]
    were made on a new database, with whatever arguments and generated
    values, and whether they returned or raised, the database satisfies the
    constraints of the schema and the rules of the validation: identifiers
    and usernames are unique, every post and comment points at rows that
    exist, every stored title has 1 to 200 characters, stored titles and
    contents are non-empty and trimmed, no post has an update timestamp, and
    every stored password hash is 64 hexadecimal digits. *)
Theorem history_consistent (cs : list call) : db_consistent (history cs).
Proof.
  unfold history. generalize consistent_init_db. generalize init_db.
  induction cs as [|c cs IH]; intros db C; cbn [fold_left].
  - exact C.
  - apply IH. apply consistent_run. exact C.
Qed.

(** X2. On a database in that state, every service method leaves one in
    that state, whether it returns or raises. *)
Theorem services_keep_consistent (db : DB) (c : call) :
  db_consistent db -> db_consistent (run db c).
Proof.
  intros C. destruct c as [g username password | g title content author_id
                          | g post_id content author_id]; cbn [run].
  - destruct (UserService.create_user g username password db) as [[u|e] db'] eqn:E;
      cbn [snd].
    + exact (consistent_create_user g db username password u db' C E).
    + apply create_user_raise_unchanged in E. rewrite E. exact C.
  - destruct (PostService.create_post g title content author_id db)
      as [[p|e] db'] eqn:E; cbn [snd].
    + exact (consistent_create_post g db title content author_id p db' C E).
    + apply create_post_raise_unchanged in E. rewrite E. exact C.
  - destruct (CommentService.create_comment g post_id content author_id db)
      as [[c|e] db'] eqn:E; cbn [snd].
    + exact (consistent_create_comment g db post_id content author_id c db' C E).
    + apply create_comment_raise_unchanged in E. rewrite E. exact C.
Qed.

Lemma services_keep_consistent_witness :
  db_consistent Sample.with_comments.
Proof.
  change Sample.with_comments
    with (run (run (run (run init_db
            (CreateUser Sample.g1 "alice" "wonderland"))
            (CreatePost Sample.g2 "Popular Post" "This got many comments" 1))
            (CreateComment Sample.g3 2 "First comment" 1))
            (CreateComment Sample.g4 2 "Second comment" 1)).
  apply services_keep_consistent.
  apply consistent_run, consistent_run, consistent_run, consistent_init_db.
Defined.

(** ** Insert, then look up *)

Section LookupFacts.

Lemma find_app_hit {A} (p : A -> bool) (l l' : list A) (x : A) :
  find p l = Some x -> find p (l ++ l') = Some x.
Proof.
  induction l as [|y l IH]; cbn [find app]; [discriminate|].
  destruct (p y); auto.
Qed.

Lemma find_snoc_fresh {A} (key : A -> N) (l : list A) (x : A) :
  (forall r, In r l -> key r <> key x) ->
  find (fun r => N.eqb (key r) (key x)) (l ++ [x]) = Some x.
Proof.
  intros H. rewrite find_app_miss.
  - cbn [find]. rewrite N.eqb_refl. reflexivity.
  - intros y Hy. apply N.eqb_neq, H, Hy.
Qed.

Lemma find_unique {A} (key : A -> N) (l : list A) (x : A) :
  NoDup (map key l) -> In x l ->
  find (fun r => N.eqb (key r) (key x)) l = Some x.
Proof.
  induction l as [|y l IH]; cbn [map find]; [intros _ []|]. intros Hn [->|Hx].
  - rewrite N.eqb_refl. reflexivity.
  - inversion Hn as [|? ? Hy Hl]; subst.
    destruct (N.eqb (key y) (key x)) eqn:E; [|auto].
    exfalso. apply N.eqb_eq in E. apply Hy. rewrite E. apply in_map, Hx.
Qed.

Lemma get_post_by_id_eq post_id db :
  PostService.get_post_by_id post_id db
  = (Return (find (fun r => N.eqb (posts.id r) post_id) (posts_table db)), db).
Proof. reflexivity. Qed.

Lemma get_user_by_id_eq user_id db :
  UserService.get_user_by_id user_id db
  = (Return (option_map user_dict
               (find (fun r => N.eqb (users.id r) user_id) (users_table db))), db).
Proof. reflexivity. Qed.

Lemma get_post_of_create_post isoformat post_id db :
  Api.get_post isoformat post_id db
  = match PostService.get_post_by_id post_id db with
    | (Return None, db') => (Api.HTTPException 404 "Post not found", db')
    | (Return (Some post), db') =>
        (Api.Response 200 (Api.post_response isoformat post), db')
    | (Raise _, db') => (Api.internal_server_error, db')
    end.
Proof. reflexivity. Qed.

Lemma create_post_of_service isoformat g title content author_id db :
  Api.create_post isoformat g (Api.CreatePostRequest.Make title content author_id) db
  = match PostService.create_post g title content author_id db with
    | (Return post, db') => (Api.Response 201 (Api.post_response isoformat post), db')
    | (Raise (ValueError e), db') => (Api.HTTPException 400 e, db')
    | (Raise _, db') => (Api.internal_server_error, db')
    end.
Proof. reflexivity. Qed.

End LookupFacts.

(** X3. A post that [create_post] returned is what [get_post_by_id]
    returns for its identifier right after; over HTTP, the body of the 201
    of [POST /api/posts] is the body of the 200 of [GET /api/posts/{id}]. *)
Theorem create_post_then_get
    (g : generated) (db db' : DB) (title content : string) (author_id : UUID)
    (p : posts.row) :
  PostService.create_post g title content author_id db = (Return p, db') ->
  PostService.get_post_by_id (posts.id p) db' = (Return (Some p), db')
  /\ forall isoformat,
       Api.create_post isoformat g
         (Api.CreatePostRequest.Make title content author_id) db
       = (Api.Response 201 (Api.post_response isoformat p), db')
       /\ Api.get_post isoformat (posts.id p) db'
          = (Api.Response 200 (Api.post_response isoformat p), db').
Proof.
  intros E. pose proof E as E'.
  apply create_post_success in E' as (_ & _ & _ & Hf & _ & Hp & ->).
  assert (G : PostService.get_post_by_id (posts.id p)
                (mkDB (users_table db) (posts_table db ++ [p]) (comments_table db))
              = (Return (Some p),
                 mkDB (users_table db) (posts_table db ++ [p]) (comments_table db))).
  { rewrite get_post_by_id_eq. cbn [posts_table].
    rewrite (find_snoc_fresh posts.id); [reflexivity|].
    intros r Hr. rewrite Hp. cbn [posts.id]. apply Hf, Hr. }
  split; [exact G|]. intros iso. split.
  - rewrite create_post_of_service, E. reflexivity.
  - rewrite get_post_of_create_post, G. reflexivity.
Qed.

Lemma create_post_then_get_witness :
  exists p,
    PostService.get_post_by_id 2 Sample.with_post = (Return (Some p), Sample.with_post)
    /\ posts.title p = "Popular Post".
Proof.
  exists (posts.Row 2 "Popular Post" "This got many comments" 1 2000 None).
  split; [|reflexivity].
  apply (create_post_then_get Sample.g2 Sample.with_alice Sample.with_post
           "Popular Post" "This got many comments" 1
           (posts.Row 2 "Popular Post" "This got many comments" 1 2000 None)).
  vm_compute. reflexivity.
Defined.

(** X4. The dict that [create_user] returned is what [get_user_by_id]
    returns for its identifier right after; and [get_user_by_id] returns
    [None], without raising, for an identifier that no user has. *)
Theorem create_user_then_get
    (g : generated) (db db' : DB) (username password : string) (u : user.dict) :
  (UserService.create_user g username password db = (Return u, db') ->
   UserService.get_user_by_id (user.id u) db' = (Return (Some u), db'))
  /\ (forall i, ~ user_exists db i ->
                UserService.get_user_by_id i db = (Return None, db)).
Proof.
  split.
  - intros E. apply create_user_success in E as (Hf & _ & -> & ->).
    rewrite get_user_by_id_eq. cbn [users_table user.id].
    set (r := users.Row (gen_random_uuid g) username
                (UserService._hash_password password) (NOW g)).
    change (gen_random_uuid g) with (users.id r) at 1.
    rewrite (find_snoc_fresh users.id); [reflexivity|].
    intros r' Hr. apply Hf, Hr.
  - intros i Hn. rewrite get_user_by_id_eq.
    destruct (find (fun r => N.eqb (users.id r) i) (users_table db)) as [r|] eqn:E;
      [|reflexivity].
    exfalso. destruct (find_some _ _ E) as [Hr Hk]. apply N.eqb_eq in Hk.
    apply Hn. exists r. auto.
Qed.

Lemma create_user_then_get_witness :
  UserService.get_user_by_id 1 Sample.with_alice
  = (Return (Some (user.Dict 1 "alice" 1000)), Sample.with_alice)
  /\ UserService.get_user_by_id 7 Sample.with_alice = (Return None, Sample.with_alice).
Proof.
  destruct (create_user_then_get Sample.g1 Sample.empty Sample.with_alice
              "alice" "wonderland" (user.Dict 1 "alice" 1000)) as [H1 _].
  destruct (create_user_then_get Sample.g1 Sample.with_alice Sample.with_alice
              "alice" "wonderland" (user.Dict 1 "alice" 1000)) as [_ H2].
  split.
  - apply H1. vm_compute. reflexivity.
  - apply H2. intros (r & [<-|[]] & Hid). vm_compute in Hid. discriminate.
Defined.

(** X5. Whatever sort the database runs: after [create_comment] returned a
    comment, the listing of its post is the former listing with that comment
    added (as a multiset), so one longer, and the listing of every other post
    is exactly what it was. *)
Theorem create_comment_then_list
    (order_by_created_at : list comments.row -> list comments.row)
    (order_by_ok : order_by_contract order_by_created_at)
    (g : generated) (db db' : DB) (post_id : UUID) (content : string)
    (author_id : UUID) (c : comments.row) :
  CommentService.create_comment g post_id content author_id db = (Return c, db') ->
  (exists before_ after_,
     CommentService.list_comments_by_post order_by_created_at post_id db
     = (Return before_, db)
     /\ CommentService.list_comments_by_post order_by_created_at post_id db'
        = (Return after_, db')
     /\ Permutation (c :: before_) after_
     /\ In c after_
     /\ List.length after_ = S (List.length before_))
  /\ (forall other, other <> post_id ->
        fst (CommentService.list_comments_by_post order_by_created_at other db')
        = fst (CommentService.list_comments_by_post order_by_created_at other db)).
Proof.
  intros E. apply create_comment_success in E as (_ & _ & _ & _ & Hc & ->).
  assert (Hpid : comments.post_id c = post_id) by (rewrite Hc; reflexivity).
  set (db' := mkDB (users_table db) (posts_table db) (comments_table db ++ [c])).
  split.
  - exists (order_by_created_at (comments_of db post_id)),
           (order_by_created_at (comments_of db' post_id)).
    assert (Ec : comments_of db' post_id = (comments_of db post_id ++ [c])%list).
    { unfold comments_of, db'. cbn [comments_table]. rewrite filter_app.
      cbn [filter]. rewrite Hpid, N.eqb_refl. reflexivity. }
    destruct (order_by_ok (comments_of db post_id)) as [P1 _].
    destruct (order_by_ok (comments_of db' post_id)) as [P2 _].
    assert (P : Permutation (c :: order_by_created_at (comments_of db post_id))
                  (order_by_created_at (comments_of db' post_id))).
    { rewrite <- P2, Ec, <- P1. apply Permutation_cons_append. }
    split; [reflexivity|]. split; [reflexivity|]. split; [exact P|]. split.
    + apply (Permutation_in _ P). left. reflexivity.
    + rewrite <- (Permutation_length P). reflexivity.
  - intros other Hn. unfold CommentService.list_comments_by_post,
      Sql.select_comments_by_post. cbn [fst]. f_equal. f_equal.
    unfold db'. cbn [comments_table]. rewrite filter_app. cbn [filter].
    rewrite Hpid. destruct (N.eqb post_id other) eqn:Eo.
    + apply N.eqb_eq in Eo. congruence.
    + apply app_nil_r.
Qed.

Lemma create_comment_then_list_witness :
  exists after_,
    CommentService.list_comments_by_post Engine.sort_scan 2 Sample.with_comments
    = (Return after_, Sample.with_comments)
    /\ In Sample.second_comment after_ /\ List.length after_ = 2.
Proof.
  destruct (create_comment_then_list Engine.sort_scan sort_scan_contract
              Sample.g4
              (snd (CommentService.create_comment Sample.g3 2 "First comment" 1
                      Sample.with_post))
              Sample.with_comments 2 "Second comment" 1 Sample.second_comment)
    as [(b & a & Eb & Ea & _ & Hin & Hlen) _].
  - vm_compute. reflexivity.
  - exists a. split; [exact Ea|]. split; [exact Hin|].
    rewrite Hlen. vm_compute in Eb. injection Eb as <-. reflexivity.
Defined.

(** ** References to users that do not exist *)





(** ** One password per username *)

Lemma NoDup_map_inj {A B} (f : A -> B) (l : list A) (x y : A) :
  NoDup (map f l) -> In x l -> In y l -> f x = f y -> x = y.
Proof.
  induction l as [|z l IH]; cbn [map]; [intros _ []|].
  intros Hn Hx Hy E. inversion Hn as [|? ? Hz Hl]; subst.
  destruct Hx as [->|Hx], Hy as [->|Hy]; auto.
  - exfalso. apply Hz. rewrite E. apply in_map, Hy.
  - exfalso. apply Hz. rewrite <- E. apply in_map, Hx.
Qed.

(** X8. On a consistent database, when [authenticate_user] returns a user
    for a username and a password, that user has the given username, is
    what [get_user_by_id] returns for its identifier, and no password with
    another hash logs in under that username. *)
Theorem authenticate_user_unique
    (db : DB) (username password : string) (d : user.dict) :
  db_consistent db ->
  UserService.authenticate_user username password db = (Return (Some d), db) ->
  user.username d = username
  /\ UserService.get_user_by_id (user.id d) db = (Return (Some d), db)
  /\ forall password',
       UserService._hash_password password' <> UserService._hash_password password ->
       UserService.authenticate_user username password' db = (Return None, db).
Proof.
  intros C E. rewrite authenticate_user_eq in E.
  destruct (find _ (users_table db)) as [r|] eqn:F; [|discriminate].
  injection E as <-. destruct (find_some _ _ F) as [Hr Hk].
  apply andb_true_iff in Hk as [K1 K2]. apply String.eqb_eq in K1, K2.
  split; [exact K1|]. split.
  - rewrite get_user_by_id_eq.
    change (user.id (user_dict r)) with (users.id r).
    rewrite (find_unique users.id _ r (users_pk db C) Hr). reflexivity.
  - intros password' Hp. apply authenticate_user_miss.
    intros (r' & Hr' & N1 & N2).
    assert (r' = r).
    { apply (NoDup_map_inj users.username (users_table db));
        [apply (users_username_unique db C) | assumption | assumption | congruence]. }
    subst r'. congruence.
Qed.

Lemma authenticate_user_unique_witness :
  UserService.get_user_by_id 1 Sample.with_alice
  = (Return (Some (user.Dict 1 "alice" 1000)), Sample.with_alice)
  /\ UserService.authenticate_user "alice" "Wonderland" Sample.with_alice
     = (Return None, Sample.with_alice).
Proof.
  destruct (authenticate_user_unique Sample.with_alice "alice" "wonderland"
              (user.Dict 1 "alice" 1000)) as (_ & H1 & H2).
  - change Sample.with_alice
      with (run init_db (CreateUser Sample.g1 "alice" "wonderland")).
    apply consistent_run, consistent_init_db.
  - vm_compute. reflexivity.
  - split; [exact H1|]. apply H2. vm_compute. discriminate.
Defined.

(** ** Nothing is ever changed or deleted *)

Lemma run_appends db c :
  exists us ps cs,
    run db c = mkDB (users_table db ++ us) (posts_table db ++ ps)
                 (comments_table db ++ cs).
Proof.
  assert (Same : exists us ps cs,
            db = mkDB (users_table db ++ us) (posts_table db ++ ps)
                   (comments_table db ++ cs)).
  { exists [], [], []. rewrite !app_nil_r. destruct db; reflexivity. }
  destruct c as [g username password | g title content author_id
                | g post_id content author_id]; cbn [run].
  - destruct (UserService.create_user g username password db) as [[u|e] db'] eqn:E;
      cbn [snd].
    + apply create_user_success in E as (_ & _ & _ & ->).
      exists [users.Row (gen_random_uuid g) username
                (UserService._hash_password password) (NOW g)], [], [].
      rewrite !app_nil_r. reflexivity.
    + apply create_user_raise_unchanged in E as ->. exact Same.
  - destruct (PostService.create_post g title content author_id db)
      as [[p|e] db'] eqn:E; cbn [snd].
    + apply create_post_success in E as (_ & _ & _ & _ & _ & _ & ->).
      exists [], [p], []. rewrite !app_nil_r. reflexivity.
    + apply create_post_raise_unchanged in E as ->. exact Same.
  - destruct (CommentService.create_comment g post_id content author_id db)
      as [[c|e] db'] eqn:E; cbn [snd].
    + apply create_comment_success in E as (_ & _ & _ & _ & _ & ->).
      exists [], [], [c]. rewrite !app_nil_r. reflexivity.
    + apply create_comment_raise_unchanged in E as ->. exact Same.
Qed.

(** X9. The services only ever append.  Whatever call is made next: a post
    that [get_post_by_id] returned is still returned, unchanged, for the
    same identifier; so is a user by [get_user_by_id]; credentials that
    logged in still log in, as the same user; and every stored comment is
    still stored. *)
Theorem calls_only_append (db : DB) (c : call) :
  (forall i p,
      PostService.get_post_by_id i db = (Return (Some p), db) ->
      PostService.get_post_by_id i (run db c) = (Return (Some p), run db c))
  /\ (forall i u,
        UserService.get_user_by_id i db = (Return (Some u), db) ->
        UserService.get_user_by_id i (run db c) = (Return (Some u), run db c))
  /\ (forall username password u,
        UserService.authenticate_user username password db = (Return (Some u), db) ->
        UserService.authenticate_user username password (run db c)
        = (Return (Some u), run db c))
  /\ (forall cm, In cm (comments_table db) -> In cm (comments_table (run db c))).
Proof.
  destruct (run_appends db c) as (us & ps & cs & ->).
  split; [|split; [|split]].
  - intros i p E. rewrite get_post_by_id_eq in *. cbn [posts_table].
    injection E as E. rewrite (find_app_hit _ _ _ _ E). reflexivity.
  - intros i u E. rewrite get_user_by_id_eq in *. cbn [users_table].
    injection E as E.
    destruct (find (fun r => N.eqb (users.id r) i) (users_table db)) as [r|] eqn:F;
      [|discriminate].
    rewrite (find_app_hit _ _ _ _ F). rewrite E. reflexivity.
  - intros username password u E. rewrite authenticate_user_eq in *.
    cbn [users_table]. injection E as E.
    destruct (find _ (users_table db)) as [r|] eqn:F; [|discriminate].
    rewrite (find_app_hit _ _ _ _ F). rewrite E. reflexivity.
  - intros cm H. cbn [comments_table]. apply in_or_app. auto.
Qed.

(** alice's post is still served after the two comments. *)
Lemma calls_only_append_witness :
  PostService.get_post_by_id 2 Sample.with_comments
  = (Return (Some (posts.Row 2 "Popular Post" "This got many comments" 1 2000 None)),
     Sample.with_comments).
Proof.
  change Sample.with_comments
    with (run (run Sample.with_post (CreateComment Sample.g3 2 "First comment" 1))
            (CreateComment Sample.g4 2 "Second comment" 1)).
  apply calls_only_append. apply calls_only_append.
  vm_compute. reflexivity.
Defined.

(** ** The handlers *)

Lemma list_comments_of_service isoformat sort post_id db :
  Api.list_comments isoformat sort post_id db
  = (Api.Response 200
       (map (Api.comment_response isoformat) (sort (comments_of db post_id))), db).
Proof. reflexivity. Qed.

(** X10. Whatever sort the database runs, [GET /api/posts/{id}/comments]
    answers 200 and writes nothing; its body has one entry per comment of
    the post, every entry carries the identifier of the path as [postId], and
    the entries are the comments the service returned, in that order.  For an
    identifier without comments the body is the empty list, not a 404. *)
Theorem list_comments_handler
    (order_by_created_at : list comments.row -> list comments.row)
    (order_by_ok : order_by_contract order_by_created_at)
    (isoformat : timestamp -> string) (db : DB) (post_id : UUID) :
  exists cs,
    CommentService.list_comments_by_post order_by_created_at post_id db
    = (Return cs, db)
    /\ Api.list_comments isoformat order_by_created_at post_id db
       = (Api.Response 200 (map (Api.comment_response isoformat) cs), db)
    /\ List.length (map (Api.comment_response isoformat) cs)
       = List.length (comments_of db post_id)
    /\ (forall b, In b (map (Api.comment_response isoformat) cs) ->
                  Api.CommentResponse.postId b = str_uuid post_id)
    /\ (comments_of db post_id = [] -> cs = []).
Proof.
  exists (order_by_created_at (comments_of db post_id)).
  destruct (order_by_ok (comments_of db post_id)) as [P _].
  split; [reflexivity|]. split; [apply list_comments_of_service|].
  split; [|split].
  - rewrite length_map. symmetry. apply Permutation_length, P.
  - intros b Hb. apply in_map_iff in Hb as (c & <- & Hc).
    apply (list_comments_in _ order_by_ok) in Hc as [_ Hid].
    cbn [Api.comment_response Api.CommentResponse.postId]. rewrite Hid. reflexivity.
  - intros E. rewrite E in *. apply Permutation_nil in P. exact P.
Qed.

Lemma list_comments_handler_witness :
  exists body,
    Api.list_comments Sample.isoformat Engine.sort_scan 2 Sample.with_comments
    = (Api.Response 200 body, Sample.with_comments)
    /\ List.length body = 2.
Proof.
  destruct (list_comments_handler Engine.sort_scan sort_scan_contract
              Sample.isoformat Sample.with_comments 2) as (cs & _ & E & L & _).
  eexists. split; [exact E|]. rewrite L. vm_compute. reflexivity.
Defined.

(** X11. Each writing handler answers 201 with exactly one row appended to
    its own table (the other two tables untouched), or answers 400 or 500
    "Internal server error" with the database exactly as it was. *)
Theorem write_handlers_answers
    (isoformat : timestamp -> string) (g : generated) (db : DB) :
  (forall request,
      (exists body row,
          Api.register g request db
          = (Api.Response 201 body,
             mkDB (users_table db ++ [row])%list (posts_table db) (comments_table db)))
      \/ (exists detail, Api.register g request db = (Api.HTTPException 400 detail, db))
      \/ Api.register g request db
         = (Api.HTTPException 500 "Internal server error", db))
  /\ (forall request,
        (exists body row,
            Api.create_post isoformat g request db
            = (Api.Response 201 body,
               mkDB (users_table db) (posts_table db ++ [row])%list (comments_table db)))
        \/ (exists detail,
              Api.create_post isoformat g request db = (Api.HTTPException 400 detail, db))
        \/ Api.create_post isoformat g request db
           = (Api.HTTPException 500 "Internal server error", db))
  /\ (forall post_id request,
        (exists body row,
            Api.create_comment isoformat g post_id request db
            = (Api.Response 201 body,
               mkDB (users_table db) (posts_table db) (comments_table db ++ [row])%list))
        \/ (exists detail,
              Api.create_comment isoformat g post_id request db
              = (Api.HTTPException 400 detail, db))
        \/ Api.create_comment isoformat g post_id request db
           = (Api.HTTPException 500 "Internal server error", db)).
Proof.
  split; [|split].
  - intros [username password]. rewrite register_of_create_user.
    destruct (UserService.create_user g username password db) as [[u|e] db'] eqn:E.
    + apply create_user_success in E as (_ & _ & _ & ->). left. eauto.
    + apply create_user_raise_unchanged in E as ->.
      destruct e; [right; left; eauto | right; right; reflexivity].
  - intros [title content author_id]. rewrite create_post_of_service.
    destruct (PostService.create_post g title content author_id db)
      as [[p|e] db'] eqn:E.
    + apply create_post_success in E as (_ & _ & _ & _ & _ & _ & ->). left. eauto.
    + apply create_post_raise_unchanged in E as ->.
      destruct e; [right; left; eauto | right; right; reflexivity].
  - intros post_id [content author_id]. rewrite create_comment_of_service.
    destruct (CommentService.create_comment g post_id content author_id db)
      as [[c|e] db'] eqn:E.
    + apply create_comment_success in E as (_ & _ & _ & _ & _ & ->). left. eauto.
    + apply create_comment_raise_unchanged in E as ->.
      destruct e; [right; left; eauto | right; right; reflexivity].
Qed.

(** ** The transaction of a request *)

(** X12. [get_db_connection] commits what its body wrote when the body
    returns and discards it when the body raises, also when an earlier step
    of the body had written.  Around a single service method it changes
    nothing: none of them writes before it raises. *)
Theorem get_db_connection_atomic (db : DB) :
  (forall A B (first : M A) (next : A -> M B) a db1 e db2,
      first db = (Return a, db1) -> next a db1 = (Raise e, db2) ->
      get_db_connection (x <- first ;; next x) db = (Raise e, db))
  /\ (forall A (body : M A) a db1,
        body db = (Return a, db1) -> get_db_connection body db = (Return a, db1))
  /\ (forall g username password,
        get_db_connection (UserService.create_user g username password) db
        = UserService.create_user g username password db)
  /\ (forall g title content author_id,
        get_db_connection (PostService.create_post g title content author_id) db
        = PostService.create_post g title content author_id db)
  /\ (forall g post_id content author_id,
        get_db_connection (CommentService.create_comment g post_id content author_id) db
        = CommentService.create_comment g post_id content author_id db).
Proof.
  split; [|split; [|split; [|split]]].
  - intros A B first next a db1 e db2 E1 E2.
    unfold get_db_connection, bind. rewrite E1, E2. reflexivity.
  - intros A body a db1 E. unfold get_db_connection. rewrite E. reflexivity.
  - intros g username password. unfold get_db_connection.
    destruct (UserService.create_user g username password db) as [[u|e] db'] eqn:E;
      [reflexivity|].
    apply create_user_raise_unchanged in E as ->. reflexivity.
  - intros g title content author_id. unfold get_db_connection.
    destruct (PostService.create_post g title content author_id db)
      as [[p|e] db'] eqn:E; [reflexivity|].
    apply create_post_raise_unchanged in E as ->. reflexivity.
  - intros g post_id content author_id. unfold get_db_connection.
    destruct (CommentService.create_comment g post_id content author_id db)
      as [[c|e] db'] eqn:E; [reflexivity|].
    apply create_comment_raise_unchanged in E as ->. reflexivity.
Qed.

(** A registration followed, in the same transaction, by a post with an
    empty title: the user is not kept. *)
Lemma get_db_connection_atomic_witness :
  get_db_connection
    (u <- UserService.create_user Sample.g1 "alice" "wonderland" ;;
     PostService.create_post Sample.g2 "" "Content" (user.id u)) Sample.empty
  = (Raise (ValueError "Title cannot be empty"), Sample.empty).
Proof.
  destruct (get_db_connection_atomic Sample.empty) as (H & _).
  apply (H _ _ _ _ (user.Dict 1 "alice" 1000) Sample.with_alice _ Sample.with_alice).
  - vm_compute. reflexivity.
  - vm_compute. reflexivity.
Defined.

(** ** The complete workflow *)




(** ** Padding *)

Lemma blank_strip s : blank (PyStr.strip s) <-> blank s.
Proof. unfold blank. rewrite (strip_trimmed s). reflexivity. Qed.

(** X14. Whitespace around a comment never matters: [create_comment] does
    the same, result and database, on a content and on that content trimmed.
    Whitespace around the title and the content of a post that was accepted
    does not matter either: the same call with both trimmed creates the same
    post.  (The converse fails for a title padded beyond 200 characters.) *)
Theorem padding_is_ignored (g : generated) (db : DB) :
  (forall post_id content author_id,
      CommentService.create_comment g post_id (PyStr.strip content) author_id db
      = CommentService.create_comment g post_id content author_id db)
  /\ (forall title content author_id p db',
        PostService.create_post g title content author_id db = (Return p, db') ->
        PostService.create_post g (PyStr.strip title) (PyStr.strip content) author_id db
        = (Return p, db')).
Proof.
  split.
  - intros post_id content author_id.
    destruct (blank_dec content) as [Hc|Hc].
    { rewrite (create_comment_blank g db post_id content author_id Hc).
      apply create_comment_blank, blank_strip, Hc. }
    assert (Hc' : ~ blank (PyStr.strip content)) by (rewrite blank_strip; exact Hc).
    destruct (post_exists_dec db post_id) as [Hp|Hp].
    + rewrite (create_comment_valid g db post_id content author_id Hc Hp).
      rewrite (create_comment_valid g db post_id _ author_id Hc' Hp).
      rewrite (strip_trimmed content). reflexivity.
    + rewrite (create_comment_no_post g db post_id content author_id Hc Hp).
      apply create_comment_no_post; assumption.
  - intros title content author_id p db' E. pose proof E as E'.
    apply create_post_success in E' as (Ht & L & Hc & _).
    rewrite (create_post_valid g db title content author_id Ht L Hc) in E.
    rewrite create_post_valid.
    + rewrite (strip_trimmed title), (strip_trimmed content). exact E.
    + rewrite blank_strip. exact Ht.
    + pose proof (len_strip_le title). lia.
    + rewrite blank_strip. exact Hc.
Qed.

Lemma padding_is_ignored_witness :
  PostService.create_post Sample.g2 (PyStr.strip "  Popular Post ")
    (PyStr.strip " This got many comments  ") 1 Sample.with_alice
  = (Return (posts.Row 2 "Popular Post" "This got many comments" 1 2000 None),
     Sample.with_post).
Proof.
  destruct (padding_is_ignored Sample.g2 Sample.with_alice) as [_ H].
  apply H. vm_compute. reflexivity.
Defined.

(** ** [Settings.origins_list] *)

Section ConfigFacts.

Import Config.

Lemma split_nonempty sep s : split sep s <> [].
Proof.
  destruct s as [|c s]; cbn [split]; [discriminate|].
  destruct (Ascii.eqb c sep); [discriminate|].
  destruct (split sep s); discriminate.
Qed.

Lemma split_length sep s : List.length (split sep s) = S (count_char sep s).
Proof.
  induction s as [|c s IH]; cbn [split count_char]; [reflexivity|].
  destruct (Ascii.eqb c sep); cbn [List.length Nat.add]; [rewrite IH; reflexivity|].
  destruct (split sep s) as [|piece pieces] eqn:E; cbn [List.length] in *; lia.
Qed.

Lemma split_no_sep sep s piece :
  In piece (split sep s) -> has_char sep piece = false.
Proof.
  revert piece. induction s as [|c s IH]; cbn [split]; intros piece H.
  - destruct H as [<-|[]]. reflexivity.
  - destruct (Ascii.eqb c sep) eqn:Ec.
    + destruct H as [<-|H]; [reflexivity | auto].
    + destruct (split sep s) as [|q qs] eqn:E.
      * destruct H as [<-|[]]. cbn [has_char]. rewrite Ec. reflexivity.
      * destruct H as [<-|H].
        -- cbn [has_char]. rewrite Ec. apply IH. left. reflexivity.
        -- apply IH. right. exact H.
Qed.

Lemma join_split sep s : join sep (split sep s) = s.
Proof.
  induction s as [|c s IH]; cbn [split]; [reflexivity|].
  pose proof (split_nonempty sep s) as Hn.
  destruct (Ascii.eqb c sep) eqn:Ec.
  - apply Ascii.eqb_eq in Ec. subst c.
    destruct (split sep s) as [|q qs]; [contradiction|].
    cbn [join String.append]. cbn [join] in IH. rewrite IH. reflexivity.
  - destruct (split sep s) as [|q qs]; [contradiction|].
    destruct qs as [|q' qs]; cbn [join String.append] in *; rewrite IH; reflexivity.
Qed.

Lemma has_char_lstrip c s :
  has_char c (PyStr.lstrip s) = true -> has_char c s = true.
Proof.
  induction s as [|c' s IH]; cbn [PyStr.lstrip]; [auto|].
  destruct (PyStr.isspace c'); [|auto].
  intros H. cbn [has_char]. rewrite (IH H). apply orb_true_r.
Qed.

Lemma has_char_rstrip c s :
  has_char c (PyStr.rstrip s) = true -> has_char c s = true.
Proof.
  induction s as [|c' s IH]; cbn [PyStr.rstrip]; [auto|].
  destruct (PyStr.rstrip s) as [|d r] eqn:E.
  - destruct (PyStr.isspace c'); cbn [has_char]; [discriminate|].
    rewrite orb_false_r. intros ->. reflexivity.
  - cbn [has_char] in *. destruct (Ascii.eqb c' c); [reflexivity|].
    cbn [orb]. exact IH.
Qed.

Lemma has_char_strip c s :
  has_char c s = false -> has_char c (PyStr.strip s) = false.
Proof.
  intros H. destruct (has_char c (PyStr.strip s)) eqn:E; [|reflexivity].
  unfold PyStr.strip in E. apply has_char_rstrip, has_char_lstrip in E. congruence.
Qed.

End ConfigFacts.

(** X15. [origins_list] cuts ALLOWED_ORIGINS at its commas and trims each
    piece: it has one origin more than the setting has commas (so it is
    never empty: an empty setting gives one empty origin), no origin
    contains a comma or has surrounding whitespace, and the pieces it
    trims, joined by commas, are the setting. *)
Theorem origins_list_spec (ALLOWED_ORIGINS : string) :
  List.length (Config.origins_list ALLOWED_ORIGINS)
  = S (Config.count_char "," ALLOWED_ORIGINS)
  /\ (forall origin, In origin (Config.origins_list ALLOWED_ORIGINS) ->
        trimmed origin /\ Config.has_char "," origin = false)
  /\ Config.origins_list ALLOWED_ORIGINS
     = map PyStr.strip (Config.split "," ALLOWED_ORIGINS)
  /\ Config.join "," (Config.split "," ALLOWED_ORIGINS) = ALLOWED_ORIGINS.
Proof.
  unfold Config.origins_list. split; [|split; [|split]].
  - rewrite length_map. apply split_length.
  - intros origin H. apply in_map_iff in H as (piece & <- & Hp).
    split; [apply strip_trimmed|]. apply has_char_strip.
    exact (split_no_sep _ _ _ Hp).
  - reflexivity.
  - apply join_split.
Qed.

Example origins_list_two :
  Config.origins_list "http://localhost:3000, https://blog.example.com ,"
  = ["http://localhost:3000"; "https://blog.example.com"; ""].
Proof. vm_compute. reflexivity. Qed.

(** ** What the monolith interpolates *)

Section MonolithFacts.

Import MonolithSql.

Lemma has_char_app c s t :
  Config.has_char c (s ++ t) = Config.has_char c s || Config.has_char c t.
Proof.
  induction s as [|d s IH]; cbn [String.append Config.has_char]; [reflexivity|].
  rewrite IH. apply orb_assoc.
Qed.

Lemma digit_not_quote ch :
  (let n := N_of_ascii ch in ((48 <=? n) && (n <=? 57))%N) = true ->
  Ascii.eqb ch "'" = false.
Proof.
  destruct ch as [[] [] [] [] [] [] [] []]; vm_compute; congruence.
Qed.

Lemma hexdigit_not_quote ch :
  Hashlib.is_hexdigit ch = true -> Ascii.eqb ch "'" = false.
Proof.
  destruct ch as [[] [] [] [] [] [] [] []]; vm_compute; congruence.
Qed.

Lemma all_digits_no_quote s :
  all_digits s = true -> Config.has_char "'" s = false.
Proof.
  induction s as [|ch s IH]; cbn [all_digits Config.has_char]; [reflexivity|].
  intros H. apply andb_true_iff in H as [H1 H2].
  rewrite (digit_not_quote ch H1), (IH H2). reflexivity.
Qed.

Lemma all_hex_no_quote s :
  Hashlib.all_hex s = true -> Config.has_char "'" s = false.
Proof.
  induction s as [|ch s IH]; cbn [Hashlib.all_hex Config.has_char]; [reflexivity|].
  intros H. apply andb_true_iff in H as [H1 H2].
  rewrite (hexdigit_not_quote ch H1), (IH H2). reflexivity.
Qed.

Lemma string_of_uint_digits d :
  all_digits (DecimalString.NilEmpty.string_of_uint d) = true.
Proof. induction d; cbn [DecimalString.NilEmpty.string_of_uint all_digits]; auto. Qed.

Lemma string_of_pos_digits p :
  exists ds,
    DecimalString.NilZero.string_of_uint (Pos.to_uint p) = ds
    /\ ds <> EmptyString /\ all_digits ds = true.
Proof.
  exists (DecimalString.NilZero.string_of_uint (Pos.to_uint p)).
  split; [reflexivity|].
  pose proof (DecimalPos.Unsigned.to_uint_nonnil p) as Hn.
  destruct (Pos.to_uint p) as [|d|d|d|d|d|d|d|d|d|d] eqn:E;
    try contradiction; (split; [discriminate|]);
    unfold DecimalString.NilZero.string_of_uint; apply string_of_uint_digits.
Qed.

(** [str(n)] is a sign, only for a negative [n], and digits. *)
Lemma str_int_shape n :
  exists ds,
    str_int n = (if (n <? 0)%Z then "-" else "") ++ ds
    /\ ds <> EmptyString /\ all_digits ds = true.
Proof.
  unfold str_int. destruct n as [|p|p]; cbn [Z.to_int Z.ltb Z.compare].
  - exists "0". repeat split. discriminate.
  - destruct (string_of_pos_digits p) as (ds & E & Hn & Hd).
    exists ds. cbn [DecimalString.NilZero.string_of_int String.append]. auto.
  - destruct (string_of_pos_digits p) as (ds & E & Hn & Hd).
    exists ds. cbn [DecimalString.NilZero.string_of_int String.append].
    rewrite E. auto.
Qed.

Lemma str_int_inj a b : str_int a = str_int b -> a = b.
Proof.
  unfold str_int. intros E.
  assert (Hnn : forall n, Z.to_int n <> Decimal.Pos Decimal.Nil
                          /\ Z.to_int n <> Decimal.Neg Decimal.Nil).
  { intros [|p|p]; cbn [Z.to_int]; split; try discriminate;
      intros [= H]; exact (DecimalPos.Unsigned.to_uint_nonnil p H). }
  apply (f_equal DecimalString.NilZero.int_of_string) in E.
  rewrite !DecimalString.NilZero.isi in E by apply Hnn.
  injection E as E. apply (f_equal Z.of_int) in E.
  rewrite !DecimalZ.of_to in E. exact E.
Qed.

Lemma append_inj_l (s t u : string) : s ++ t = s ++ u -> t = u.
Proof. induction s; cbn [String.append]; intros E; [exact E|]. injection E. auto. Qed.

End MonolithFacts.

(** X16. In the monolith, what [get_post] and [get_comments] interpolate
    is an [int]: its text is a minus sign for a negative number only, then
    decimal digits, so the statement contains no quote and is the text of no
    other identifier; and what [register] and [login] interpolate for the
    password is [hash_password], which contains no quote whatever the
    password is. *)
Theorem monolith_quote_free_interpolations (post_id : Z) (password : string) :
  (exists digits,
      MonolithSql.get_post_statement post_id
      = "SELECT * FROM posts WHERE id = "
        ++ (if (post_id <? 0)%Z then "-" else "") ++ digits
      /\ MonolithSql.get_comments_statement post_id
         = "SELECT * FROM comments WHERE post_id = "
           ++ (if (post_id <? 0)%Z then "-" else "") ++ digits
      /\ digits <> EmptyString /\ MonolithSql.all_digits digits = true)
  /\ Config.has_char "'" (MonolithSql.get_post_statement post_id) = false
  /\ Config.has_char "'" (MonolithSql.get_comments_statement post_id) = false
  /\ (forall other,
        MonolithSql.get_post_statement other = MonolithSql.get_post_statement post_id
        \/ MonolithSql.get_comments_statement other
           = MonolithSql.get_comments_statement post_id ->
        other = post_id)
  /\ Config.has_char "'" (Monolith.hash_password password) = false.
Proof.
  destruct (str_int_shape post_id) as (ds & E & Hn & Hd).
  assert (Q : Config.has_char "'" (MonolithSql.str_int post_id) = false).
  { rewrite E, has_char_app, (all_digits_no_quote ds Hd).
    destruct (post_id <? 0)%Z; reflexivity. }
  split; [|split; [|split; [|split]]].
  - exists ds. unfold MonolithSql.get_post_statement, MonolithSql.get_comments_statement.
    rewrite E. auto.
  - unfold MonolithSql.get_post_statement. rewrite has_char_app, Q. reflexivity.
  - unfold MonolithSql.get_comments_statement. rewrite has_char_app, Q. reflexivity.
  - intros other [H|H]; apply append_inj_l in H; apply str_int_inj, H.
  - apply all_hex_no_quote. unfold Monolith.hash_password.
    apply md5_hexdigest_shape.
Qed.

Example get_post_statement_minus_12 :
  MonolithSql.get_post_statement (-12) = "SELECT * FROM posts WHERE id = -12".
Proof. vm_compute. reflexivity. Qed.

Example get_comments_statement_0 :
  MonolithSql.get_comments_statement 0 = "SELECT * FROM comments WHERE post_id = 0".
Proof. vm_compute. reflexivity. Qed.

(** ** A registration and the other usernames *)



(** ** Listing in the order of insertion *)

Lemma sorted_permutation_unique (l l' : list comments.row) :
  strictly_increasing l -> StronglySorted created_at_le l' ->
  Permutation l l' -> l' = l.
Proof.
  revert l'. induction l as [|x t IH]; intros l' Hl Hl' P.
  - apply Permutation_nil in P. exact P.
  - destruct l' as [|y t'].
    { apply Permutation_sym, Permutation_nil in P. discriminate. }
    apply StronglySorted_inv in Hl as [Ht Hx].
    apply StronglySorted_inv in Hl' as [Ht' Hy].
    rewrite Forall_forall in Hx, Hy.
    assert (y = x).
    { assert (Iy : In y (x :: t)) by (apply (Permutation_in _ (Permutation_sym P)); left; reflexivity).
      assert (Ix : In x (y :: t')) by (apply (Permutation_in _ P); left; reflexivity).
      destruct Iy as [<-|Iy]; [reflexivity|].
      destruct Ix as [->|Ix]; [reflexivity|].
      pose proof (Hx y Iy) as H1. pose proof (Hy x Ix) as H2.
      unfold created_at_lt, created_at_le in *. lia. }
    subst y. f_equal. apply IH; try assumption.
    apply (Permutation_cons_inv P).
Qed.

(** X18. When the comments of a post were stored with strictly increasing
    creation timestamps, [list_comments_by_post] returns them in the order
    they were inserted, whatever sort the database runs. *)
Theorem list_comments_in_insertion_order
    (order_by_created_at : list comments.row -> list comments.row)
    (order_by_ok : order_by_contract order_by_created_at)
    (db : DB) (post_id : UUID) :
  strictly_increasing (comments_of db post_id) ->
  CommentService.list_comments_by_post order_by_created_at post_id db
  = (Return (comments_of db post_id), db).
Proof.
  intros H. rewrite list_comments_eq.
  destruct (order_by_ok (comments_of db post_id)) as [P S].
  rewrite (sorted_permutation_unique _ _ H S P). reflexivity.
Qed.

(** Three comments at 3000, 4000 and 5000: listed first, second, third,
    also by the sort that puts equal timestamps in reverse. *)
Lemma list_comments_in_insertion_order_witness :
  let first := comments.Row 3 2 "First comment" 1 3000 in
  let second := comments.Row 4 2 "Second comment" 1 4000 in
  let third := comments.Row 5 2 "Third comment" 1 5000 in
  let db := mkDB (users_table Sample.with_post) (posts_table Sample.with_post)
              [first; second; third] in
  CommentService.list_comments_by_post Engine.sort_scan_front 2 db
  = (Return [first; second; third], db).
Proof.
  cbv zeta.
  apply (list_comments_in_insertion_order Engine.sort_scan_front
           sort_scan_front_contract).
  unfold strictly_increasing, comments_of. cbn [comments_table filter comments.post_id].
  rewrite !N.eqb_refl.
  repeat constructor; unfold created_at_lt; cbn [comments.created_at]; lia.
Defined.

(** ** The text of an identifier *)

Lemma substring_length (n m : nat) (s : string) :
  n + m <= String.length s -> String.length (substring n m s) = m.
Proof.
  revert m s. induction n as [|n IH]; intros m s.
  - revert s. induction m as [|m IHm]; intros s H.
    + destruct s; reflexivity.
    + destruct s as [|c s]; cbn [String.length plus] in H; [lia|].
      cbn [substring String.length]. rewrite IHm; [reflexivity|]. cbn [plus]. lia.
  - intros H. destruct s as [|c s]; cbn [String.length] in H; [lia|].
    cbn [substring]. apply IH. lia.
Qed.

Lemma str_uuid_length (i : UUID) : String.length (str_uuid i) = 36.
Proof.
  unfold str_uuid. cbv zeta.
  set (x := Hashlib.hex _).
  assert (L : String.length x = 32).
  { unfold x. rewrite hex_len. unfold Hashlib.be64, Hashlib.be32.
    rewrite !length_app. reflexivity. }
  change String.length with PyStr.len. rewrite !len_app. unfold PyStr.len.
  rewrite !substring_length by lia. reflexivity.
Qed.

(** X19. The [userId] of a 201 of [POST /api/auth/register], and of a 200
    of [POST /api/auth/login], has 36 characters. *)
Theorem user_id_has_36_characters (g : generated) (db db' : DB) :
  (forall request body,
      Api.register g request db = (Api.Response 201 body, db') ->
      String.length (Api.RegisterResponse.userId body) = 36)
  /\ (forall request body,
        Api.login request db = (Api.Response 200 body, db') ->
        String.length (Api.LoginResponse.userId body) = 36).
Proof.
  split.
  - intros [username password] body. rewrite register_of_create_user.
    destruct (UserService.create_user g username password db) as [[u|[m|e]] d];
      intros E; try discriminate.
    injection E as <- _. apply str_uuid_length.
  - intros [username password] body. rewrite login_of_authenticate_user.
    rewrite authenticate_user_eq.
    destruct (find _ (users_table db)) as [r|]; intros E; try discriminate.
    injection E as <- _. apply str_uuid_length.
Qed.

Lemma user_id_has_36_characters_witness :
  exists body,
    Api.register Sample.g1 (Api.RegisterRequest.Make "alice" "wonderland") Sample.empty
    = (Api.Response 201 body, Sample.with_alice)
    /\ String.length (Api.RegisterResponse.userId body) = 36.
Proof.
  destruct (user_id_has_36_characters Sample.g1 Sample.empty Sample.with_alice)
    as [H _].
  exists (Api.RegisterResponse.Make "00000000-0000-0000-0000-000000000001" "alice").
  assert (E : Api.register Sample.g1 (Api.RegisterRequest.Make "alice" "wonderland")
                Sample.empty
              = (Api.Response 201
                   (Api.RegisterResponse.Make "00000000-0000-0000-0000-000000000001"
                      "alice"), Sample.with_alice))
    by (vm_compute; reflexivity).
  split; [exact E|]. exact (H _ _ E).
Defined.
